(** * Expense-Tracker: the PWA development server (server.py)

    A shallow embedding of [server.py]: the request handler [PWAHandler]
    (its [end_headers] and [do_GET] overrides), the bootstrap function
    [main] and the port selection of the [__main__] block, together
    with the parts of the Python runtime they call: string slicing,
    [int], [str], [os.path.exists] on a POSIX file tree, and the
    request handling of [http.server.SimpleHTTPRequestHandler].

    The runtime is modelled as far as the handler uses it. A handler
    object begins where the library has parsed the request line and
    the headers: it has the method, the path, the version and the
    request headers. Paths are strings of the characters of the
    request line; they hold no white space, at which the library
    splits the request line. The file tree has regular files and
    directories, no symbolic links and no permissions, so that opening
    an existing regular file succeeds. What the library takes from its
    tables, the clock, its page templates and its formatting is a
    field of the record [library]; what the interpreter takes from its
    Unicode database is the parameter [unicode] of [int]. *)

From Stdlib Require Import ZArith List String Ascii Bool Lia.
From Stdlib Require Import Numbers.DecimalString Numbers.DecimalPos.
Import ListNotations.

Local Open Scope string_scope.
Local Open Scope Z_scope.

(** ** Python strings and integers *)

Module Py.

(** [s[1:]]: everything after the first character; the empty string
    stays empty. *)
Definition tail (s : string) : string :=
  match s with
  | EmptyString => EmptyString
  | String _ r => r
  end.

(** [str(n)] for an integer. *)
Definition str (n : Z) : string := NilZero.string_of_int (Z.to_int n).

(** White space as [str.isspace] and [str.rstrip] see it, among the
    characters below 256. *)
Definition is_space (c : ascii) : bool :=
  let n := nat_of_ascii c in
  ((9 <=? n) && (n <=? 13) || (28 <=? n) && (n <=? 32)
   || (n =? 133) || (n =? 160))%nat.

(** ASCII white space as [int] skips it around a literal: the
    characters 9 to 13 and the blank. *)
Definition is_int_space (c : ascii) : bool :=
  let n := nat_of_ascii c in
  ((9 <=? n) && (n <=? 13) || (n =? 32))%nat.

Definition is_ascii_char (c : ascii) : bool := (nat_of_ascii c <? 128)%nat.

Definition is_digit (c : ascii) : bool :=
  let n := nat_of_ascii c in ((48 <=? n) && (n <=? 57))%nat.

Definition digit_val (c : ascii) : Z := Z.of_nat (nat_of_ascii c) - 48.

Fixpoint lstrip (l : list ascii) : list ascii :=
  match l with
  | c :: r => if is_space c then lstrip r else l
  | [] => []
  end.

Definition rstrip (l : list ascii) : list ascii := rev (lstrip (rev l)).

(** The white space of [int] taken off both ends. *)
Fixpoint int_lstrip (l : list ascii) : list ascii :=
  match l with
  | c :: r => if is_int_space c then int_lstrip r else l
  | [] => []
  end.

Definition int_strip (l : list ascii) : list ascii :=
  rev (int_lstrip (rev (int_lstrip l))).

(** The digits of a decimal literal: single underscores are allowed
    between digits, nowhere else. *)
Fixpoint digits (acc : Z) (after_digit : bool) (l : list ascii) : option Z :=
  match l with
  | [] => if after_digit then Some acc else None
  | c :: r =>
      if is_digit c then digits (10 * acc + digit_val c) true r
      else if Ascii.eqb c "_"%char
           then (if after_digit then digits acc false r else None)
           else None
  end.

(** The default of [sys.int_max_str_digits]: a literal with more
    digits is refused. *)
Definition int_max_str_digits : nat := 4300.

Definition digit_count (l : list ascii) : nat :=
  List.length (filter is_digit l).

(** [int(s)] in base ten for an ASCII string: [Some n] for the value,
    [None] where Python raises [ValueError]. *)
Definition int_ascii (s : string) : option Z :=
  let l := int_strip (list_ascii_of_string s) in
  if (int_max_str_digits <? digit_count l)%nat then None
  else match l with
       | "+"%char :: r => digits 0 false r
       | "-"%char :: r => option_map Z.opp (digits 0 false r)
       | l => digits 0 false l
       end.

(** What the Unicode database of the interpreter makes of a run of
    bytes that are not ASCII: a blank for each white space character,
    the ASCII digit for each decimal digit, a question mark for any
    other character. *)
Definition unicode : Type := string -> string.

Definition flush_run (u : unicode) (run : string) : string :=
  match run with
  | EmptyString => EmptyString
  | _ => u run
  end.

(** A string made ASCII for [int]: the ASCII characters stay, each run
    of other bytes becomes what [u] makes of it. *)
Fixpoint to_ascii (u : unicode) (run : string) (s : string) : string :=
  match s with
  | EmptyString => flush_run u run
  | String c r =>
      if is_ascii_char c
      then flush_run u run ++ String c (to_ascii u EmptyString r)
      else to_ascii u (run ++ String c EmptyString) r
  end.

(** [int(s)] in base ten. *)
Definition int (u : unicode) (s : string) : option Z :=
  int_ascii (to_ascii u EmptyString s).

(** [s.split(c, 1)[0]]: the part of [s] before the first [c]. *)
Fixpoint before (c : ascii) (s : string) : string :=
  match s with
  | EmptyString => EmptyString
  | String a r => if Ascii.eqb a c then EmptyString else String a (before c r)
  end.

(** [s.split(c)]: the pieces of [s] between occurrences of [c]; never
    an empty list. *)
Fixpoint split (c : ascii) (s : string) : list string :=
  match s with
  | EmptyString => [EmptyString]
  | String a r =>
      if Ascii.eqb a c then EmptyString :: split c r
      else match split c r with
           | w :: ws => String a w :: ws
           | [] => [String a EmptyString]
           end
  end.

(** [c in s]. *)
Fixpoint contains (c : ascii) (s : string) : bool :=
  match s with
  | EmptyString => false
  | String a r => Ascii.eqb a c || contains c r
  end.

(** [s.endswith(c)] for a single character. *)
Fixpoint endswith (c : ascii) (s : string) : bool :=
  match s with
  | EmptyString => false
  | String a EmptyString => Ascii.eqb a c
  | String _ r => endswith c r
  end.

End Py.

(** ** The bootstrap: [main] and the [__main__] block *)

(** The exceptions that leave the [try] of [main]: the two it
    handles, and any other by the name of its class, such as the
    [OverflowError] of a bind to a port outside 0 to 65535. *)
Inductive exn : Type :=
| OSError (errno : Z) (strerror : string)
| KeyboardInterrupt
| OtherError (name : string).

(** [str(e)] for an [OSError] with an errno and a message. *)
Definition str_exn (e : exn) : string :=
  match e with
  | OSError errno strerror => "[Errno " ++ Py.str errno ++ "] " ++ strerror
  | KeyboardInterrupt => ""
  | OtherError _ => ""
  end.

(** What the operating system and the user do to one run of the
    server: binding the listener to a port succeeds or raises, and the
    accept loop either goes on for ever or is ended by an exception. *)
Record run_env : Type := {
  bind : Z -> option exn;
  serve_forever : option exn
}.

(** A run prints lines and, unless it keeps serving, exits with a code. *)
Record run : Type := {
  stdout : list string;
  exit_code : option Z
}.

Definition LF : string := String (ascii_of_nat 10) EmptyString.

Definition banner (PORT : Z) : list string :=
  [ "🚀 Expense Tracker PWA Server";
    "📱 Server running at: http://localhost:" ++ Py.str PORT;
    "🌐 Access the app at: http://localhost:" ++ Py.str PORT;
    "📋 Features available:";
    "   - PWA Installation";
    "   - Offline Support";
    "   - Camera Integration";
    "   - Geolocation";
    "   - Responsive Design";
    LF ++ "💡 For PWA features, use HTTPS in production";
    "🛑 Press Ctrl+C to stop the server" ].

(** The body of the [try]: what it printed and the exception that left
    it, if any. *)
Definition main_try (env : run_env) (PORT : Z) : list string * option exn :=
  match bind env PORT with
  | Some e => ([], Some e)
  | None => (banner PORT, serve_forever env)
  end.

(** The [except] clauses of [main]; an exception that none of them
    catches ends the process with the exit code 1 and prints nothing
    on the standard output. *)
Definition main_except (PORT : Z) (e : exn) : run :=
  match e with
  | OSError errno _ =>
      {| stdout :=
           if errno =? 48
           then [ "❌ Port " ++ Py.str PORT
                    ++ " is already in use. Try a different port.";
                  "💡 You can specify a different port: python3 server.py "
                    ++ Py.str (PORT + 1) ]
           else [ "❌ Error starting server: " ++ str_exn e ];
         exit_code := Some 1 |}
  | KeyboardInterrupt =>
      {| stdout := [ LF ++ "🛑 Server stopped by user" ];
         exit_code := Some 0 |}
  | OtherError _ => {| stdout := []; exit_code := Some 1 |}
  end.

Definition main (env : run_env) (port : Z) : run :=
  let PORT := port in
  match main_try env PORT with
  | (out, None) => {| stdout := out; exit_code := None |}
  | (out, Some e) =>
      let r := main_except PORT e in
      {| stdout := out ++ stdout r; exit_code := exit_code r |}
  end.

(** The [__main__] block up to the call of [main]: the lines printed
    and the port chosen from [sys.argv]. *)
Definition select_port (u : Py.unicode) (argv : list string)
  : list string * Z :=
  match argv with
  | _ :: arg :: _ =>
      match Py.int u arg with
      | Some n => ([], n)
      | None => (["❌ Invalid port number. Using default port 8000."], 8000)
      end
  | _ => ([], 8000)
  end.

Definition script (u : Py.unicode) (env : run_env) (argv : list string)
  : run :=
  let (out, PORT) := select_port u argv in
  let r := main env PORT in
  {| stdout := out ++ stdout r; exit_code := exit_code r |}.

(** ** The file tree and [os.path] *)

#[local] Set Warnings "-register-all".

(** A regular file with its modification time and content, or a
    directory with its entries. *)
Inductive node : Type :=
| File (mtime : Z) (data : string)
| Dir (entries : list (string * node)).

(** The tree from the root directory, and the working directory of the
    process as the names leading to it from the root. *)
Record filesystem : Type := {
  root : node;
  cwd : list string
}.

Fixpoint assoc (name : string) (entries : list (string * node)) : option node :=
  match entries with
  | [] => None
  | (n, x) :: r => if String.eqb n name then Some x else assoc name r
  end.

(** The node an absolute, normalised location names. *)
Fixpoint lookup (n : node) (loc : list string) : option node :=
  match loc with
  | [] => Some n
  | c :: r =>
      match n with
      | Dir entries =>
          match assoc c entries with
          | Some m => lookup m r
          | None => None
          end
      | File _ _ => None
      end
  end.

Module Posix.

(** One component of a pathname, walked from the location [pos]: the
    location walked from must be a directory; an empty component and
    [.] stay there, [..] goes to the parent (the root is its own
    parent), a name must be an entry. *)
Definition step (fs : filesystem) (pos : list string) (comp : string)
  : option (list string) :=
  match lookup (root fs) pos with
  | Some (Dir entries) =>
      if String.eqb comp "" || String.eqb comp "." then Some pos
      else if String.eqb comp ".." then Some (removelast pos)
      else match assoc comp entries with
           | Some _ => Some (pos ++ [comp])%list
           | None => None
           end
  | _ => None
  end.

Fixpoint walk (fs : filesystem) (pos : list string) (comps : list string)
  : option (list string) :=
  match comps with
  | [] => Some pos
  | c :: r =>
      match step fs pos c with
      | Some pos' => walk fs pos' r
      | None => None
      end
  end.

(** [stat(path)]: the empty pathname names nothing; a pathname that
    starts with a slash is walked from the root, any other from the
    working directory. *)
Definition stat (fs : filesystem) (path : string) : option node :=
  match path with
  | EmptyString => None
  | String c _ =>
      let start := if Ascii.eqb c "/"%char then [] else cwd fs in
      match walk fs start (Py.split "/"%char path) with
      | Some pos => lookup (root fs) pos
      | None => None
      end
  end.

End Posix.

Module os_path.

(** [os.path.exists]: true for whatever [stat] finds, a file or a
    directory. *)
Definition exists_ (fs : filesystem) (path : string) : bool :=
  match Posix.stat fs path with
  | Some _ => true
  | None => false
  end.

Definition isfile (fs : filesystem) (path : string) : bool :=
  match Posix.stat fs path with
  | Some (File _ _) => true
  | _ => false
  end.

Definition isdir (fs : filesystem) (path : string) : bool :=
  match Posix.stat fs path with
  | Some (Dir _) => true
  | _ => false
  end.

End os_path.

(** ** The request handler of the standard library *)

(** What a handler puts into its header buffer. *)
Inductive line : Type :=
| StatusLine (code : Z) (message : string)
| Header (keyword value : string)
| EndOfHeaders.

(** What a handler writes to the connection: the flushed header buffer,
    or body bytes. *)
Inductive chunk : Type :=
| Head (lines : list line)
| Body (data : string).

(** The request handler object: the request it is handling (the
    method, the path, the version of the request line and the request
    headers by their names), its header buffer and what it has written
    so far. *)
Record handler : Type := {
  command : string;
  path : string;
  request_version : string;
  headers : string -> option string;
  headers_buffer : list line;
  wfile : list chunk
}.

Definition set_path (p : string) (h : handler) : handler :=
  {| command := command h; path := p;
     request_version := request_version h; headers := headers h;
     headers_buffer := headers_buffer h; wfile := wfile h |}.

Definition buffer (l : line) (h : handler) : handler :=
  {| command := command h; path := path h;
     request_version := request_version h; headers := headers h;
     headers_buffer := (headers_buffer h ++ [l])%list; wfile := wfile h |}.

Definition write (c : chunk) (h : handler) : handler :=
  {| command := command h; path := path h;
     request_version := request_version h; headers := headers h;
     headers_buffer := headers_buffer h; wfile := (wfile h ++ [c])%list |}.

(** The handler as it is when a request has been parsed. *)
Definition request_of (version : string) (hdrs : string -> option string)
  (cmd p : string) : handler :=
  {| command := cmd; path := p;
     request_version := version; headers := hdrs;
     headers_buffer := []; wfile := [] |}.

Definition no_headers : string -> option string := fun _ => None.

(** The handler for a request line [cmd p HTTP/1.1] with no header the
    library looks at. *)
Definition request (cmd p : string) : handler :=
  request_of "HTTP/1.1" no_headers cmd p.

(** The test the library makes before it buffers anything: a request
    of version HTTP/0.9 gets no status line and no headers. *)
Definition http09 (h : handler) : bool :=
  String.eqb (request_version h) "HTTP/0.9".

(** The values the library computes from its own tables, from the
    clock, from its templates and by its formatting: [parsedate] is
    the time of an [If-Modified-Since] value, where it is well formed
    and in UTC; [repr] is the [%r] of a string. *)
Record library : Type := {
  version_string : string;
  now : Z;
  date_time_string : Z -> string;
  guess_type : list string -> string;
  redirect_location : string -> string;
  error_page : Z -> string -> string;
  listing_page : string -> list string -> string;
  parsedate : string -> option Z;
  repr : string -> string
}.

Module BaseHTTPRequestHandler.

(** [send_response_only]: the status line joins the buffer. *)
Definition send_response_only (code : Z) (message : string) (h : handler)
  : handler :=
  if http09 h then h else buffer (StatusLine code message) h.

(** [send_header]: the header joins the buffer. *)
Definition send_header (keyword value : string) (h : handler) : handler :=
  if http09 h then h else buffer (Header keyword value) h.

(** [flush_headers]: the buffer is written out and emptied. *)
Definition flush_headers (h : handler) : handler :=
  {| command := command h; path := path h;
     request_version := request_version h; headers := headers h;
     headers_buffer := [];
     wfile := (wfile h ++ [Head (headers_buffer h)])%list |}.

(** [end_headers] as the base class defines it. *)
Definition end_headers (h : handler) : handler :=
  if http09 h then h else flush_headers (buffer EndOfHeaders h).

Section Methods.

(** The [end_headers] method of the class of the handler object:
    the methods below call it through [self]. *)
Variable self_end_headers : handler -> handler.
Variable lib : library.

Definition send_response (code : Z) (message : string) (h : handler)
  : handler :=
  send_header "Date" (date_time_string lib (now lib))
    (send_header "Server" (version_string lib)
       (send_response_only code message h)).

Definition has_body (code : Z) : bool :=
  (200 <=? code) && negb ((code =? 204) || (code =? 205) || (code =? 304)).

Definition send_error (code : Z) (message : string) (h : handler)
  : handler :=
  let h1 := send_header "Connection" "close" (send_response code message h) in
  if has_body code then
    let body := error_page lib code message in
    let h2 :=
      self_end_headers
        (send_header "Content-Length" (Py.str (Z.of_nat (String.length body)))
           (send_header "Content-Type" "text/html;charset=utf-8" h1)) in
    if negb (String.eqb (command h) "HEAD") && negb (String.eqb body "")
    then write (Body body) h2 else h2
  else self_end_headers h1.

End Methods.

End BaseHTTPRequestHandler.

Module SimpleHTTPRequestHandler.

Import BaseHTTPRequestHandler.

Definition hex_val (c : ascii) : option nat :=
  let n := nat_of_ascii c in
  if ((48 <=? n) && (n <=? 57))%nat then Some (n - 48)%nat
  else if ((65 <=? n) && (n <=? 70))%nat then Some (n - 55)%nat
  else if ((97 <=? n) && (n <=? 102))%nat then Some (n - 87)%nat
  else None.

(** [urllib.parse.unquote] on the bytes of the path: every [%XX] with
    two hexadecimal digits becomes the byte it names. The escapes of
    bytes from 128 on, which Python goes on to decode as UTF-8, stay
    these bytes here. *)
Fixpoint unquote (s : string) : string :=
  match s with
  | EmptyString => EmptyString
  | String a t =>
      if Ascii.eqb a "%"%char then
        match t with
        | String h1 (String h2 r) =>
            match hex_val h1, hex_val h2 with
            | Some x, Some y => String (ascii_of_nat (16 * x + y)) (unquote r)
            | _, _ => String a (unquote t)
            end
        | _ => String a (unquote t)
        end
      else String a (unquote t)
  end.

(** The loop of [posixpath.normpath] over the components of a path;
    [new_comps] is kept with its last element first. *)
Fixpoint normpath_loop (initial_slashes : bool) (new_comps : list string)
  (comps : list string) : list string :=
  match comps with
  | [] => rev new_comps
  | comp :: r =>
      if String.eqb comp "" || String.eqb comp "." then
        normpath_loop initial_slashes new_comps r
      else if negb (String.eqb comp "..")
              || (negb initial_slashes
                  && match new_comps with [] => true | _ => false end)
              || match new_comps with
                 | last :: _ => String.eqb last ".."
                 | [] => false
                 end
      then normpath_loop initial_slashes (comp :: new_comps) r
      else normpath_loop initial_slashes (List.tl new_comps) r
  end.

Definition starts_with_slash (s : string) : bool :=
  match s with
  | String c _ => Ascii.eqb c "/"%char
  | EmptyString => false
  end.

Definition rstrip (s : string) : string :=
  string_of_list_ascii (Py.rstrip (list_ascii_of_string s)).

(** The path of a request target: what comes before the query and the
    fragment. *)
Definition url_path (p : string) : string :=
  Py.before "#"%char (Py.before "?"%char p).

Definition simple_name (word : string) : bool :=
  negb (String.eqb word "" || String.eqb word "." || String.eqb word "..").

(** [translate_path]: the names to follow from the served directory,
    and whether the result ends with a slash. *)
Definition translate_path (p : string) : list string * bool :=
  let p := url_path p in
  let trailing_slash := Py.endswith "/"%char (rstrip p) in
  let p := unquote p in
  let comps := normpath_loop (starts_with_slash p) [] (Py.split "/"%char p) in
  (filter simple_name comps, trailing_slash).

Definition index_pages : list string := ["index.html"; "index.htm"].

Section Methods.

Variable self_end_headers : handler -> handler.
Variable lib : library.
Variable fs : filesystem.

(** The node at the end of [words], followed from the served
    directory, which is the working directory. *)
Definition node_at (words : list string) : option node :=
  lookup (root fs) (cwd fs ++ words)%list.

Definition redirect (h : handler) : handler :=
  self_end_headers
    (send_header "Content-Length" "0"
       (send_header "Location" (redirect_location lib (path h))
          (send_response lib 301 "Moved Permanently" h))).

Definition list_directory (entries : list (string * node)) (h : handler)
  : handler * option string :=
  let page := listing_page lib (path h) (map fst entries) in
  (self_end_headers
     (send_header "Content-Length" (Py.str (Z.of_nat (String.length page)))
        (send_header "Content-type" "text/html; charset=utf-8"
           (send_response lib 200 "OK" h))),
   Some page).

(** The test for the browser cache: the request has an
    [If-Modified-Since] header and no [If-None-Match] header, the date
    is well formed and in UTC, and the file was not modified after
    it. *)
Definition not_modified (hdrs : string -> option string) (mtime : Z) : bool :=
  match hdrs "If-Modified-Since", hdrs "If-None-Match" with
  | Some value, None =>
      match parsedate lib value with
      | Some ims => mtime <=? ims
      | None => false
      end
  | _, _ => false
  end.

(** The end of [send_head]: the file is opened, and either the
    browser cache is good or the headers of the file are sent; or the
    file cannot be opened. *)
Definition send_file (words : list string) (h : handler)
  : handler * option string :=
  match node_at words with
  | Some (File mtime data) =>
      if not_modified (headers h) mtime then
        (self_end_headers (send_response lib 304 "Not Modified" h), None)
      else
        (self_end_headers
           (send_header "Last-Modified" (date_time_string lib mtime)
              (send_header "Content-Length"
                 (Py.str (Z.of_nat (String.length data)))
                 (send_header "Content-type" (guess_type lib words)
                    (send_response lib 200 "OK" h)))),
         Some data)
  | _ => (send_error self_end_headers lib 404 "File not found" h, None)
  end.

(** The first index page that is a regular file of the directory. *)
Fixpoint find_index (entries : list (string * node)) (pages : list string)
  : option string :=
  match pages with
  | [] => None
  | index :: r =>
      match assoc index entries with
      | Some (File _ _) => Some index
      | _ => find_index entries r
      end
  end.

Definition send_head (h : handler) : handler * option string :=
  let (words, trailing_slash) := translate_path (path h) in
  match node_at words with
  | Some (Dir entries) =>
      if negb (Py.endswith "/"%char (url_path (path h))) then
        (redirect h, None)
      else
        match find_index entries index_pages with
        | Some index => send_file (words ++ [index])%list h
        | None => list_directory entries h
        end
  | _ =>
      if trailing_slash
      then (send_error self_end_headers lib 404 "File not found" h, None)
      else send_file words h
  end.

Definition do_GET (h : handler) : handler :=
  match send_head h with
  | (h', Some data) => write (Body data) h'
  | (h', None) => h'
  end.

Definition do_HEAD (h : handler) : handler := fst (send_head h).

End Methods.

End SimpleHTTPRequestHandler.

(** ** The handler of the server: [PWAHandler] *)

Module PWAHandler.

Import BaseHTTPRequestHandler.

Definition end_headers (h : handler) : handler :=
  let h :=
    send_header "Cache-Control" "no-cache, no-store, must-revalidate" h in
  let h := send_header "Pragma" "no-cache" h in
  let h := send_header "Expires" "0" h in
  let h := send_header "Access-Control-Allow-Origin" "*" h in
  let h := send_header "Access-Control-Allow-Methods" "GET, POST, OPTIONS" h in
  let h := send_header "Access-Control-Allow-Headers" "Content-Type" h in
  BaseHTTPRequestHandler.end_headers h.

(** The condition of the [if] of [do_GET]. *)
Definition falls_back (fs : filesystem) (p : string) : bool :=
  String.eqb p "/" || negb (os_path.exists_ fs (Py.tail p)).

(** The [if] statement of [do_GET]: the handler with its path
    rewritten or left as it is. *)
Definition rewrite_path (fs : filesystem) (h : handler) : handler :=
  if falls_back fs (path h) then set_path "/index.html" h else h.

Definition do_GET (lib : library) (fs : filesystem) (h : handler) : handler :=
  SimpleHTTPRequestHandler.do_GET end_headers lib fs (rewrite_path fs h).

(** [do_HEAD] is inherited. *)
Definition do_HEAD (lib : library) (fs : filesystem) (h : handler) : handler :=
  SimpleHTTPRequestHandler.do_HEAD end_headers lib fs h.

(** The dispatch of [handle_one_request] on the request method: the
    class has [do_GET] and [do_HEAD] and no other [do_] method. *)
Definition handle (lib : library) (fs : filesystem) (h : handler) : handler :=
  if String.eqb (command h) "GET" then do_GET lib fs h
  else if String.eqb (command h) "HEAD" then do_HEAD lib fs h
  else send_error end_headers lib 501
         ("Unsupported method (" ++ repr lib (command h) ++ ")") h.

End PWAHandler.

(** ** Vocabulary of the specification *)

(** The header set of the specification, in its order. *)
Definition fixed_headers : list line :=
  [ Header "Cache-Control" "no-cache, no-store, must-revalidate";
    Header "Pragma" "no-cache";
    Header "Expires" "0";
    Header "Access-Control-Allow-Origin" "*";
    Header "Access-Control-Allow-Methods" "GET, POST, OPTIONS";
    Header "Access-Control-Allow-Headers" "Content-Type" ].

(** The head of a response that carries the header set: the status
    line, the headers [hs] of the library, the header set, the end. *)
Definition response_head (code : Z) (message : string) (hs : list line)
  : chunk :=
  Head (StatusLine code message :: hs ++ fixed_headers ++ [EndOfHeaders]).

(** The headers [send_response] puts after the status line. *)
Definition server_headers (lib : library) : list line :=
  [ Header "Server" (version_string lib);
    Header "Date" (date_time_string lib (now lib)) ].

(** The headers of an error response, of a served file, of a directory
    listing and of a redirection. *)
Definition error_headers (lib : library) (code : Z) (message : string)
  : list line :=
  (server_headers lib
   ++ [ Header "Connection" "close";
        Header "Content-Type" "text/html;charset=utf-8";
        Header "Content-Length"
          (Py.str (Z.of_nat (String.length (error_page lib code message)))) ]
  )%list.

Definition file_headers (lib : library) (words : list string) (mtime : Z)
  (data : string) : list line :=
  (server_headers lib
   ++ [ Header "Content-type" (guess_type lib words);
        Header "Content-Length" (Py.str (Z.of_nat (String.length data)));
        Header "Last-Modified" (date_time_string lib mtime) ])%list.

Definition listing_headers (lib : library) (page : string) : list line :=
  (server_headers lib
   ++ [ Header "Content-type" "text/html; charset=utf-8";
        Header "Content-Length" (Py.str (Z.of_nat (String.length page))) ]
  )%list.

Definition redirect_headers (lib : library) (p : string) : list line :=
  (server_headers lib
   ++ [ Header "Location" (redirect_location lib p);
        Header "Content-Length" "0" ])%list.

(** The body of an error response to the method [cmd]. *)
Definition error_body (lib : library) (cmd : string) (code : Z)
  (message : string) : list chunk :=
  if negb (String.eqb cmd "HEAD")
     && negb (String.eqb (error_page lib code message) "")
  then [Body (error_page lib code message)] else [].

(** The head of a response as it goes out: for a request of version
    HTTP/0.9 the library writes no head at all. *)
Definition head_of (version : string) (hd : chunk) : list chunk :=
  if String.eqb version "HTTP/0.9" then [] else [hd].

(** How an existing regular file is answered: with 304 and no body
    where the browser cache is good, with 200 and the bytes of the
    file otherwise. *)
Definition file_head (lib : library) (hdrs : string -> option string)
  (words : list string) (mtime : Z) (data : string) : chunk :=
  if SimpleHTTPRequestHandler.not_modified lib hdrs mtime
  then response_head 304 "Not Modified" (server_headers lib)
  else response_head 200 "OK" (file_headers lib words mtime data).

Definition file_body (lib : library) (hdrs : string -> option string)
  (mtime : Z) (data : string) : list chunk :=
  if SimpleHTTPRequestHandler.not_modified lib hdrs mtime
  then [] else [Body data].

(** The handler [h] when it has answered with [out]. *)
Definition answered (h : handler) (out : list chunk) : handler :=
  {| command := command h; path := path h;
     request_version := request_version h; headers := headers h;
     headers_buffer := []; wfile := out |}.

(** A response built with the routines of the library: the status
    line, the headers of [send_response], the headers [hs] sent one
    after the other, and the end of the headers. *)
Definition send_headers (hs : list (string * string)) (h : handler)
  : handler :=
  fold_left (fun h kv => BaseHTTPRequestHandler.send_header (fst kv) (snd kv) h) hs h.

(** A response that carries the header set: one head that ends with
    the header set, then at most one piece of body. *)
Definition carries_fixed_headers (out : list chunk) : Prop :=
  exists code message hs body,
    out = response_head code message hs :: body
    /\ (body = [] \/ exists data, body = [Body data]).

(** The status code of a response. *)
Definition status_of (out : list chunk) : option Z :=
  match out with
  | Head (StatusLine code _ :: _) :: _ => Some code
  | _ => None
  end.

(** The body bytes of a response. *)
Fixpoint body_of (out : list chunk) : string :=
  match out with
  | [] => ""
  | Head _ :: r => body_of r
  | Body data :: r => data ++ body_of r
  end.

(** The form of the handler without the test for the root path. *)
Definition do_GET_without_root_test (lib : library) (fs : filesystem)
  (h : handler) : handler :=
  let h := if negb (os_path.exists_ fs (Py.tail (path h)))
           then set_path "/index.html" h else h in
  SimpleHTTPRequestHandler.do_GET PWAHandler.end_headers lib fs h.

(** The errno of "address already in use" on the systems Python runs on. *)
Inductive platform : Type := Linux | Darwin | Windows.

Definition EADDRINUSE (os : platform) : Z :=
  match os with
  | Linux => 98
  | Darwin => 48
  | Windows => 10048
  end.

(** The operating system refusing a bind because the port is taken. *)
Definition port_in_use (os : platform) : run_env :=
  {| bind := fun _ => Some (OSError (EADDRINUSE os) "Address already in use");
     serve_forever := None |}.

(** A character of a plain name: not a separator of the request
    target, not a percent sign, not white space. *)
Definition plain_char (c : ascii) : bool :=
  negb (Ascii.eqb c "/"%char || Ascii.eqb c "?"%char || Ascii.eqb c "#"%char
        || Ascii.eqb c "%"%char || Py.is_space c).

(** A character of a plain path: a plain character or the slash. *)
Definition path_char (c : ascii) : bool :=
  Ascii.eqb c "/"%char || plain_char c.

Fixpoint all_chars (f : ascii -> bool) (s : string) : bool :=
  match s with
  | EmptyString => true
  | String c r => f c && all_chars f r
  end.

(** A plain name: not empty, not [.] or [..], of plain characters. *)
Definition plain_name (w : string) : bool :=
  SimpleHTTPRequestHandler.simple_name w && all_chars plain_char w.

(** The request path made of the names [ws]: [/w1/w2/.../wn]. *)
Definition url_of (ws : list string) : string :=
  "/" ++ String.concat "/" ws.

(** The components [cs] of a path never climb above the directory
    they start from: [depth] is the number of names below it that are
    still open when [cs] begins. *)
Fixpoint stays_inside (depth : nat) (cs : list string) : bool :=
  match cs with
  | [] => true
  | c :: r =>
      if String.eqb c "" || String.eqb c "." then stays_inside depth r
      else if String.eqb c ".." then
        match depth with
        | O => false
        | S d => stays_inside d r
        end
      else stays_inside (S depth) r
  end.

(** ** Sample data *)

Definition stdlib : library :=
  {| version_string := "SimpleHTTP/0.6 Python/3.12.0";
     now := 0;
     date_time_string := fun t => "@" ++ Py.str t;
     guess_type := fun _ => "application/octet-stream";
     redirect_location := fun p => p ++ "/";
     error_page := fun code message => Py.str code ++ " " ++ message;
     listing_page := fun p names => String.concat LF names;
     parsedate := Py.int_ascii;
     repr := fun s => "'" ++ s ++ "'" |}.

(** A Unicode database that knows no digit and no white space. *)
Definition no_unicode : Py.unicode := fun _ => "?".

(** The headers of a conditional request: [If-Modified-Since] alone. *)
Definition if_modified_since (value : string) : string -> option string :=
  fun name => if String.eqb name "If-Modified-Since" then Some value else None.

(** A served directory [/srv/app] with a document, a script, a
    directory and a file whose name holds a question mark; next to it,
    a file outside the served directory. *)
Definition app : node :=
  Dir [ ("index.html", File 1 "<html>");
        ("app.js", File 2 "js");
        ("static", Dir [ ("style.css", File 3 "css") ]);
        ("app.js?v=2", File 4 "other") ].

Definition site : filesystem :=
  {| root := Dir [ ("srv", Dir [ ("app", app);
                                 ("secret.txt", File 9 "secret") ]) ];
     cwd := ["srv"; "app"] |}.

(** A served directory with a file whose name holds a question mark
    and a file whose name holds a percent sign. *)
Definition odd_site : filesystem :=
  {| root := Dir [ ("srv", Dir [ ("app", Dir [ ("x?y", File 5 "query");
                                               ("a%41", File 6 "percent") ])
                               ]) ];
     cwd := ["srv"; "app"] |}.

(** The served directory with nothing in it. *)
Definition empty_site : filesystem :=
  {| root := Dir [ ("srv", Dir [ ("app", Dir []) ]) ];
     cwd := ["srv"; "app"] |}.

(** ** Vocabulary of the further properties *)

(** The answers of [send_head] to a request with the headers [hdrs],
    the method [cmd] and the path [p]: the head it buffers, the body
    it writes itself and the content it returns to be copied, if any.
    [words] are the names followed from the served directory. *)
Inductive head_answer (lib : library) (fs : filesystem)
  (hdrs : string -> option string) (cmd p : string)
  : chunk -> list chunk -> option string -> Prop :=
| answer_file (words : list string) (mtime : Z) (data : string) :
    Forall (fun w => SimpleHTTPRequestHandler.simple_name w = true) words ->
    SimpleHTTPRequestHandler.node_at fs words = Some (File mtime data) ->
    SimpleHTTPRequestHandler.not_modified lib hdrs mtime = false ->
    head_answer lib fs hdrs cmd p
      (response_head 200 "OK" (file_headers lib words mtime data))
      [] (Some data)
| answer_not_modified (words : list string) (mtime : Z) (data : string) :
    Forall (fun w => SimpleHTTPRequestHandler.simple_name w = true) words ->
    SimpleHTTPRequestHandler.node_at fs words = Some (File mtime data) ->
    SimpleHTTPRequestHandler.not_modified lib hdrs mtime = true ->
    head_answer lib fs hdrs cmd p
      (response_head 304 "Not Modified" (server_headers lib))
      [] None
| answer_listing (words : list string) (entries : list (string * node)) :
    Forall (fun w => SimpleHTTPRequestHandler.simple_name w = true) words ->
    SimpleHTTPRequestHandler.node_at fs words = Some (Dir entries) ->
    head_answer lib fs hdrs cmd p
      (response_head 200 "OK"
         (listing_headers lib (listing_page lib p (map fst entries))))
      [] (Some (listing_page lib p (map fst entries)))
| answer_redirect (words : list string) (entries : list (string * node)) :
    SimpleHTTPRequestHandler.node_at fs words = Some (Dir entries) ->
    head_answer lib fs hdrs cmd p
      (response_head 301 "Moved Permanently" (redirect_headers lib p))
      [] None
| answer_not_found :
    head_answer lib fs hdrs cmd p
      (response_head 404 "File not found"
         (error_headers lib 404 "File not found"))
      (error_body lib cmd 404 "File not found")
      None.

(** The lines of the head of a response. *)
Definition head_lines (out : list chunk) : list line :=
  match out with
  | Head ls :: _ => ls
  | _ => []
  end.

(** How many header lines have the keyword [keyword]. *)
Definition header_count (keyword : string) (ls : list line) : nat :=
  List.length
    (filter (fun l => match l with
                      | Header k _ => String.eqb k keyword
                      | _ => false
                      end) ls).

Definition fixed_keywords : list string :=
  [ "Cache-Control"; "Pragma"; "Expires"; "Access-Control-Allow-Origin";
    "Access-Control-Allow-Methods"; "Access-Control-Allow-Headers" ].

(** The characters of which a decimal literal of [int] is made, apart
    from the digits. *)
Definition literal_char (c : ascii) : bool :=
  Py.is_digit c || Py.is_space c || Ascii.eqb c "_"%char
  || Ascii.eqb c "+"%char || Ascii.eqb c "-"%char.

(** * Properties *)

(** ** Strings *)

Section StringFacts.

Variable c : ascii.

Lemma before_absent (s : string) :
  Py.contains c s = false -> Py.before c s = s.
Proof.
  induction s as [|a s IH]; simpl; [reflexivity|].
  intros H. apply orb_false_iff in H as [Ha Hs].
  rewrite Ha, (IH Hs). reflexivity.
Qed.

Lemma before_app (u q : string) :
  Py.contains c u = false -> Py.before c (u ++ String c q) = u.
Proof.
  induction u as [|a u IH]; simpl.
  - intros _. rewrite Ascii.eqb_refl. reflexivity.
  - intros H. apply orb_false_iff in H as [Ha Hu].
    rewrite Ha, (IH Hu). reflexivity.
Qed.

Lemma split_absent (w : string) :
  Py.contains c w = false -> Py.split c w = [w].
Proof.
  induction w as [|a w IH]; simpl; [reflexivity|].
  intros H. apply orb_false_iff in H as [Ha Hw].
  rewrite Ha, (IH Hw). reflexivity.
Qed.

Lemma split_app (w s : string) :
  Py.contains c w = false ->
  Py.split c (w ++ String c s) = w :: Py.split c s.
Proof.
  induction w as [|a w IH]; simpl.
  - intros _. rewrite Ascii.eqb_refl. reflexivity.
  - intros H. apply orb_false_iff in H as [Ha Hw].
    rewrite Ha, (IH Hw). reflexivity.
Qed.

Lemma contains_app (s t : string) :
  Py.contains c (s ++ t) = Py.contains c s || Py.contains c t.
Proof.
  induction s as [|a s IH]; simpl; [reflexivity|].
  rewrite IH. apply orb_assoc.
Qed.

Lemma endswith_cons (a : ascii) (s : string) :
  s <> "" -> Py.endswith c (String a s) = Py.endswith c s.
Proof. destruct s; [congruence | reflexivity]. Qed.

Lemma endswith_app (s w : string) :
  w <> "" -> Py.endswith c (s ++ w) = Py.endswith c w.
Proof.
  intros Hw. induction s as [|a s IH]; simpl; [reflexivity|].
  rewrite <- IH. apply endswith_cons.
  destruct s; simpl; [assumption | discriminate].
Qed.

Lemma endswith_absent (w : string) :
  Py.contains c w = false -> Py.endswith c w = false.
Proof.
  induction w as [|a w IH]; simpl; [reflexivity|].
  intros H. apply orb_false_iff in H as [Ha Hw].
  destruct w; [assumption | auto].
Qed.

End StringFacts.

Lemma all_chars_app (f : ascii -> bool) (s t : string) :
  all_chars f (s ++ t) = all_chars f s && all_chars f t.
Proof.
  induction s as [|a s IH]; simpl; [reflexivity|].
  rewrite IH. apply andb_assoc.
Qed.

Lemma all_chars_weaken (f g : ascii -> bool) (s : string) :
  (forall a, f a = true -> g a = true) ->
  all_chars f s = true -> all_chars g s = true.
Proof.
  intros Hfg. induction s as [|a s IH]; simpl; [reflexivity|].
  intros H. apply andb_true_iff in H as [Ha Hs].
  rewrite (Hfg _ Ha), (IH Hs). reflexivity.
Qed.

Lemma all_chars_absent (f : ascii -> bool) (c : ascii) (s : string) :
  f c = false -> all_chars f s = true -> Py.contains c s = false.
Proof.
  intros Hc. induction s as [|a s IH]; simpl; [reflexivity|].
  intros H. apply andb_true_iff in H as [Ha Hs].
  rewrite (IH Hs), orb_false_r.
  destruct (Ascii.eqb_spec a c); [congruence | reflexivity].
Qed.

Lemma all_chars_In (f : ascii -> bool) (s : string) :
  all_chars f s = true ->
  forall a, In a (list_ascii_of_string s) -> f a = true.
Proof.
  induction s as [|b s IH]; simpl; [contradiction|].
  intros H a [<-|Ha]; apply andb_true_iff in H as [Hb Hs]; auto.
Qed.

Lemma lstrip_id (l : list ascii) :
  (forall a, In a l -> Py.is_space a = false) -> Py.lstrip l = l.
Proof.
  destruct l as [|a l]; simpl; [reflexivity|].
  intros H. rewrite (H a); auto.
Qed.

Lemma rstrip_id (l : list ascii) :
  (forall a, In a l -> Py.is_space a = false) -> Py.rstrip l = l.
Proof.
  intros H. unfold Py.rstrip. rewrite lstrip_id.
  - apply rev_involutive.
  - intros a Ha. apply H, in_rev, Ha.
Qed.

(** ** Plain names and plain paths *)

Lemma plain_name_chars (w : string) :
  plain_name w = true -> all_chars plain_char w = true.
Proof. intros H. apply andb_true_iff in H. apply H. Qed.

Lemma plain_name_simple (w : string) :
  plain_name w = true -> SimpleHTTPRequestHandler.simple_name w = true.
Proof. intros H. apply andb_true_iff in H. apply H. Qed.

Lemma plain_name_nonempty (w : string) : plain_name w = true -> w <> "".
Proof. intros H ->. discriminate H. Qed.

Lemma plain_names_simple (ws : list string) :
  forallb plain_name ws = true ->
  forallb SimpleHTTPRequestHandler.simple_name ws = true.
Proof.
  induction ws as [|w ws IH]; simpl; [reflexivity|].
  intros H. apply andb_true_iff in H as [Hw Hws].
  rewrite (plain_name_simple _ Hw), (IH Hws). reflexivity.
Qed.

Lemma plain_char_path_char (a : ascii) :
  plain_char a = true -> path_char a = true.
Proof. intros H. unfold path_char. rewrite H. apply orb_true_r. Qed.

Lemma concat_path_chars (ws : list string) :
  forallb plain_name ws = true ->
  all_chars path_char (String.concat "/" ws) = true.
Proof.
  induction ws as [|w ws IH]; [reflexivity|].
  intros H. simpl in H. apply andb_true_iff in H as [Hw Hws].
  pose proof (all_chars_weaken _ _ _ plain_char_path_char
                (plain_name_chars _ Hw)) as Hc.
  destruct ws as [|w' r]; [exact Hc|].
  change (String.concat "/" (w :: w' :: r))
    with (w ++ String "/" (String.concat "/" (w' :: r))).
  rewrite all_chars_app, Hc, andb_true_l.
  change (path_char "/"
          && all_chars path_char (String.concat "/" (w' :: r)) = true).
  rewrite (IH Hws). reflexivity.
Qed.

Lemma url_path_chars (ws : list string) :
  forallb plain_name ws = true -> all_chars path_char (url_of ws) = true.
Proof. intros H. unfold url_of. simpl. apply concat_path_chars, H. Qed.

Lemma concat_nonempty (w : string) (ws : list string) :
  w <> "" -> String.concat "/" (w :: ws) <> "".
Proof.
  intros Hw. destruct w as [|a w]; [congruence|].
  destruct ws; simpl; discriminate.
Qed.

(** Splitting a joined list of plain names gives the names back. *)
Lemma split_concat (ws : list string) :
  ws <> [] -> forallb plain_name ws = true ->
  Py.split "/" (String.concat "/" ws) = ws.
Proof.
  induction ws as [|w ws IH]; [congruence|].
  intros _ H. simpl in H. apply andb_true_iff in H as [Hw Hws].
  assert (Hs : Py.contains "/" w = false).
  { apply (all_chars_absent plain_char); [reflexivity|].
    apply plain_name_chars, Hw. }
  destruct ws as [|w' r].
  - simpl. apply split_absent, Hs.
  - change (String.concat "/" (w :: w' :: r))
      with (w ++ String "/" (String.concat "/" (w' :: r))).
    rewrite (split_app _ _ _ Hs), IH; [reflexivity | discriminate | exact Hws].
Qed.

Lemma url_path_plain (ws : list string) :
  forallb plain_name ws = true ->
  SimpleHTTPRequestHandler.url_path (url_of ws) = url_of ws.
Proof.
  intros H. pose proof (url_path_chars _ H) as Hc.
  unfold SimpleHTTPRequestHandler.url_path.
  rewrite (before_absent "?"), (before_absent "#");
    try reflexivity; apply (all_chars_absent path_char); auto.
Qed.

Lemma url_path_query (ws : list string) (q : string) :
  forallb plain_name ws = true ->
  SimpleHTTPRequestHandler.url_path (url_of ws ++ String "?" q) = url_of ws.
Proof.
  intros H. pose proof (url_path_chars _ H) as Hc.
  unfold SimpleHTTPRequestHandler.url_path.
  rewrite (before_app "?"), (before_absent "#");
    try reflexivity; apply (all_chars_absent path_char); auto.
Qed.

Lemma unquote_absent (s : string) :
  Py.contains "%" s = false -> SimpleHTTPRequestHandler.unquote s = s.
Proof.
  induction s as [|a s IH]; simpl; [reflexivity|].
  intros H. apply orb_false_iff in H as [Ha Hs].
  rewrite Ha, (IH Hs). reflexivity.
Qed.

Lemma rstrip_plain (s : string) :
  all_chars path_char s = true -> SimpleHTTPRequestHandler.rstrip s = s.
Proof.
  intros H. unfold SimpleHTTPRequestHandler.rstrip.
  rewrite rstrip_id; [apply string_of_list_ascii_of_string|].
  intros a Ha. pose proof (all_chars_In _ _ H a Ha) as Hp.
  unfold path_char, plain_char in Hp.
  destruct (Py.is_space a) eqn:Hsp; [|reflexivity].
  rewrite !orb_true_r in Hp. simpl in Hp.
  destruct (Ascii.eqb_spec a "/");
    [subst a; discriminate Hsp | discriminate Hp].
Qed.

Lemma endswith_concat (ws : list string) :
  ws <> [] -> forallb plain_name ws = true ->
  Py.endswith "/" (String.concat "/" ws) = false.
Proof.
  induction ws as [|w ws IH]; [congruence|].
  intros _ H. simpl in H. apply andb_true_iff in H as [Hw Hws].
  destruct ws as [|w' r].
  - simpl. apply endswith_absent, (all_chars_absent plain_char);
      [reflexivity | apply plain_name_chars, Hw].
  - change (String.concat "/" (w :: w' :: r))
      with (w ++ String "/" (String.concat "/" (w' :: r))).
    simpl in Hws. pose proof Hws as Hws'.
    apply andb_true_iff in Hws' as [Hw' _].
    rewrite endswith_app by discriminate.
    rewrite endswith_cons
      by (apply concat_nonempty, plain_name_nonempty, Hw').
    apply IH; [discriminate | exact Hws].
Qed.

Lemma endswith_url (ws : list string) :
  ws <> [] -> forallb plain_name ws = true ->
  Py.endswith "/" (url_of ws) = false.
Proof.
  intros Hne H. unfold url_of.
  change ("/" ++ String.concat "/" ws)
    with (String "/" (String.concat "/" ws)).
  destruct ws as [|w ws]; [congruence|].
  simpl in H. pose proof H as H'. apply andb_true_iff in H' as [Hw _].
  rewrite endswith_cons by (apply concat_nonempty, plain_name_nonempty, Hw).
  apply endswith_concat; [discriminate | exact H].
Qed.

(** ** The path translation of the library on plain paths *)

Lemma normpath_loop_simple (b : bool) (ws new_comps : list string) :
  forallb SimpleHTTPRequestHandler.simple_name ws = true ->
  SimpleHTTPRequestHandler.normpath_loop b new_comps ws
  = (rev new_comps ++ ws)%list.
Proof.
  revert new_comps.
  induction ws as [|w ws IH]; intros new_comps H; simpl.
  - symmetry. apply app_nil_r.
  - simpl in H. apply andb_true_iff in H as [Hw Hws].
    unfold SimpleHTTPRequestHandler.simple_name in Hw.
    apply negb_true_iff, orb_false_iff in Hw as [Hw Hdd].
    rewrite Hw, Hdd. simpl. rewrite (IH _ Hws). simpl.
    rewrite <- app_assoc. reflexivity.
Qed.

Lemma filter_simple (ws : list string) :
  forallb SimpleHTTPRequestHandler.simple_name ws = true ->
  filter SimpleHTTPRequestHandler.simple_name ws = ws.
Proof.
  induction ws as [|w ws IH]; simpl; [reflexivity|].
  intros H. apply andb_true_iff in H as [Hw Hws].
  rewrite Hw, (IH Hws). reflexivity.
Qed.

(** A request target whose path part is the plain path of [ws]
    translates to [ws], without a trailing slash. *)
Lemma translate_path_plain (p : string) (ws : list string) :
  ws <> [] -> forallb plain_name ws = true ->
  SimpleHTTPRequestHandler.url_path p = url_of ws ->
  SimpleHTTPRequestHandler.translate_path p = (ws, false).
Proof.
  intros Hne H Hp. pose proof (url_path_chars _ H) as Hc.
  unfold SimpleHTTPRequestHandler.translate_path. rewrite Hp.
  rewrite (rstrip_plain _ Hc), (endswith_url _ Hne H).
  rewrite unquote_absent
    by (apply (all_chars_absent path_char); [reflexivity | exact Hc]).
  unfold url_of at 1 2.
  change ("/" ++ String.concat "/" ws)
    with (String "/" (String.concat "/" ws)).
  cbn [SimpleHTTPRequestHandler.starts_with_slash Py.split].
  rewrite Ascii.eqb_refl, (split_concat _ Hne H).
  cbn [SimpleHTTPRequestHandler.normpath_loop String.eqb orb].
  rewrite (normpath_loop_simple _ _ _ (plain_names_simple _ H)).
  simpl. rewrite (filter_simple _ (plain_names_simple _ H)). reflexivity.
Qed.

(** ** Pathname resolution on plain paths *)

Lemma lookup_app (n : node) (a b : list string) :
  lookup n (a ++ b)
  = match lookup n a with
    | Some m => lookup m b
    | None => None
    end.
Proof.
  revert n. induction a as [|c a IH]; intros n; simpl; [reflexivity|].
  destruct n as [|entries]; [reflexivity|].
  destruct (assoc c entries); [apply IH | reflexivity].
Qed.

Lemma step_plain (fs : filesystem) (pos : list string) (w : string) :
  plain_name w = true ->
  Posix.step fs pos w
  = match lookup (root fs) (pos ++ [w]) with
    | Some _ => Some (pos ++ [w])%list
    | None => None
    end.
Proof.
  intros Hw. apply plain_name_simple in Hw.
  unfold SimpleHTTPRequestHandler.simple_name in Hw.
  apply negb_true_iff, orb_false_iff in Hw as [Hw Hdd].
  unfold Posix.step. rewrite lookup_app, Hw, Hdd.
  destruct (lookup (root fs) pos) as [[|entries]|]; simpl; try reflexivity.
  destruct (assoc w entries); reflexivity.
Qed.

Lemma walk_plain (fs : filesystem) (ws pos : list string) :
  forallb plain_name ws = true ->
  match Posix.walk fs pos ws with
  | Some pos' => lookup (root fs) pos'
  | None => None
  end = lookup (root fs) (pos ++ ws).
Proof.
  revert pos. induction ws as [|w ws IH]; intros pos H; simpl.
  - rewrite app_nil_r. reflexivity.
  - simpl in H. apply andb_true_iff in H as [Hw Hws].
    rewrite (step_plain _ _ _ Hw).
    replace (pos ++ w :: ws)%list with ((pos ++ [w]) ++ ws)%list
      by (rewrite <- app_assoc; reflexivity).
    destruct (lookup (root fs) (pos ++ [w])) eqn:E.
    + apply IH, Hws.
    + rewrite lookup_app, E. reflexivity.
Qed.

(** [stat] of a relative plain path finds the node the names lead to
    from the working directory. *)
Lemma stat_plain (fs : filesystem) (ws : list string) :
  ws <> [] -> forallb plain_name ws = true ->
  Posix.stat fs (Py.tail (url_of ws)) = lookup (root fs) (cwd fs ++ ws).
Proof.
  intros Hne H. unfold url_of. simpl Py.tail.
  rewrite <- (walk_plain fs ws (cwd fs) H).
  rewrite <- (split_concat ws Hne H) at 2.
  destruct ws as [|w ws]; [congruence|].
  simpl in H. apply andb_true_iff in H as [Hw _].
  pose proof (plain_name_chars _ Hw) as Hc.
  destruct w as [|a w]; [discriminate Hw|].
  simpl in Hc. apply andb_true_iff in Hc as [Ha _].
  assert (Hs : Ascii.eqb a "/" = false).
  { destruct (Ascii.eqb_spec a "/"); [subst a; discriminate Ha | reflexivity]. }
  unfold Posix.stat.
  destruct ws as [|w' r]; simpl String.concat; cbv iota; rewrite Hs;
    reflexivity.
Qed.

(** ** The responses of the handler *)

Import BaseHTTPRequestHandler.

(** The routines of the library on a handler given by its fields: what
    each does is decided by the version of the request alone. *)
Lemma send_response_only_fields (b : bool) (code : Z) (message : string)
  (c q v : string) (hd : string -> option string) (buf : list line)
  (out : list chunk) :
  String.eqb v "HTTP/0.9" = b ->
  send_response_only code message (Build_handler c q v hd buf out)
  = Build_handler c q v hd
      (if b then buf else (buf ++ [StatusLine code message])%list) out.
Proof.
  intros H. unfold send_response_only, http09, buffer.
  cbn [request_version headers command path headers_buffer wfile].
  rewrite H. destruct b; reflexivity.
Qed.

Lemma send_header_fields (b : bool) (keyword value : string)
  (c q v : string) (hd : string -> option string) (buf : list line)
  (out : list chunk) :
  String.eqb v "HTTP/0.9" = b ->
  send_header keyword value (Build_handler c q v hd buf out)
  = Build_handler c q v hd
      (if b then buf else (buf ++ [Header keyword value])%list) out.
Proof.
  intros H. unfold send_header, http09, buffer.
  cbn [request_version headers command path headers_buffer wfile].
  rewrite H. destruct b; reflexivity.
Qed.

Lemma end_headers_fields (b : bool)
  (c q v : string) (hd : string -> option string) (buf : list line)
  (out : list chunk) :
  String.eqb v "HTTP/0.9" = b ->
  end_headers (Build_handler c q v hd buf out)
  = Build_handler c q v hd
      (if b then buf else [])
      (if b then out else (out ++ [Head (buf ++ [EndOfHeaders])])%list).
Proof.
  intros H. unfold end_headers, http09, flush_headers, buffer.
  cbn [request_version headers command path headers_buffer wfile].
  rewrite H. destruct b; reflexivity.
Qed.

(** The routines of the library, run on a handler whose version test
    [H] is known. *)
Ltac run_response H :=
  unfold PWAHandler.end_headers, send_error,
    SimpleHTTPRequestHandler.redirect,
    SimpleHTTPRequestHandler.list_directory, send_response;
  cbv zeta;
  unfold request_of, answered, write, set_path;
  cbn [request_version headers command path headers_buffer wfile];
  repeat (first [ rewrite (send_response_only_fields _ _ _ _ _ _ _ _ _ H)
                | rewrite (send_header_fields _ _ _ _ _ _ _ _ _ H)
                | rewrite (end_headers_fields _ _ _ _ _ _ _ H) ];
          cbv iota;
          cbn [request_version headers command path headers_buffer wfile]);
  unfold write;
  cbn [request_version headers command path headers_buffer wfile app].

Lemma end_headers_spec (h : handler) :
  http09 h = false ->
  PWAHandler.end_headers h
  = {| command := command h; path := path h;
       request_version := request_version h; headers := headers h;
       headers_buffer := [];
       wfile := (wfile h
                 ++ [Head (headers_buffer h ++ fixed_headers
                           ++ [EndOfHeaders])])%list |}.
Proof.
  destruct h as [c q v hd buf out]. unfold http09.
  cbn [request_version headers command path headers_buffer wfile].
  intros H. run_response H.
  unfold fixed_headers. repeat rewrite <- app_assoc. reflexivity.
Qed.

Lemma end_headers_http09 (h : handler) :
  http09 h = true -> PWAHandler.end_headers h = h.
Proof.
  destruct h as [c q v hd buf out]. unfold http09.
  cbn [request_version headers command path headers_buffer wfile].
  intros H. run_response H. reflexivity.
Qed.

Section Responses.

Variable lib : library.
Variable fs : filesystem.
Variable v : string.
Variable hdrs : string -> option string.
Variables cmd p : string.

Lemma send_error_out (code : Z) (message : string) :
  has_body code = true ->
  send_error PWAHandler.end_headers lib code message
    (request_of v hdrs cmd p)
  = answered (request_of v hdrs cmd p)
      (head_of v (response_head code message (error_headers lib code message))
       ++ error_body lib cmd code message).
Proof.
  intros Hb. unfold head_of, error_body.
  destruct (String.eqb v "HTTP/0.9") eqn:Hv; run_response Hv; rewrite Hb;
    destruct (negb (String.eqb cmd "HEAD")
              && negb (String.eqb (error_page lib code message) ""));
    run_response Hv; reflexivity.
Qed.

Lemma send_error_no_body (code : Z) (message : string) :
  has_body code = false ->
  send_error PWAHandler.end_headers lib code message
    (request_of v hdrs cmd p)
  = answered (request_of v hdrs cmd p)
      (head_of v (response_head code message
                    (server_headers lib ++ [Header "Connection" "close"]))).
Proof.
  intros Hb. unfold head_of.
  destruct (String.eqb v "HTTP/0.9") eqn:Hv; run_response Hv; rewrite Hb;
    run_response Hv; reflexivity.
Qed.

Lemma redirect_out :
  SimpleHTTPRequestHandler.redirect PWAHandler.end_headers lib
    (request_of v hdrs cmd p)
  = answered (request_of v hdrs cmd p)
      (head_of v (response_head 301 "Moved Permanently"
                    (redirect_headers lib p))).
Proof.
  unfold head_of.
  destruct (String.eqb v "HTTP/0.9") eqn:Hv; run_response Hv; reflexivity.
Qed.

Lemma list_directory_out (entries : list (string * node)) :
  SimpleHTTPRequestHandler.list_directory PWAHandler.end_headers lib
    entries (request_of v hdrs cmd p)
  = (answered (request_of v hdrs cmd p)
       (head_of v (response_head 200 "OK"
                     (listing_headers lib
                        (listing_page lib p (map fst entries))))),
     Some (listing_page lib p (map fst entries))).
Proof.
  unfold head_of.
  destruct (String.eqb v "HTTP/0.9") eqn:Hv; run_response Hv; reflexivity.
Qed.

Lemma send_file_found (words : list string) (mtime : Z) (data : string) :
  SimpleHTTPRequestHandler.node_at fs words = Some (File mtime data) ->
  SimpleHTTPRequestHandler.send_file PWAHandler.end_headers lib fs words
    (request_of v hdrs cmd p)
  = (answered (request_of v hdrs cmd p)
       (head_of v (file_head lib hdrs words mtime data)),
     if SimpleHTTPRequestHandler.not_modified lib hdrs mtime
     then None else Some data).
Proof.
  intros Hn. unfold SimpleHTTPRequestHandler.send_file, head_of, file_head.
  rewrite Hn. cbn [headers request_of].
  destruct (SimpleHTTPRequestHandler.not_modified lib hdrs mtime);
    destruct (String.eqb v "HTTP/0.9") eqn:Hv; run_response Hv; reflexivity.
Qed.

Lemma send_file_missing (words : list string) :
  (forall mtime data,
      SimpleHTTPRequestHandler.node_at fs words <> Some (File mtime data)) ->
  SimpleHTTPRequestHandler.send_file PWAHandler.end_headers lib fs words
    (request_of v hdrs cmd p)
  = (answered (request_of v hdrs cmd p)
       (head_of v (response_head 404 "File not found"
                     (error_headers lib 404 "File not found"))
        ++ error_body lib cmd 404 "File not found"),
     None).
Proof.
  intros Hn. unfold SimpleHTTPRequestHandler.send_file.
  destruct (SimpleHTTPRequestHandler.node_at fs words) as [[mtime data|]|];
    [destruct (Hn mtime data); reflexivity | |];
    rewrite send_error_out by reflexivity; reflexivity.
Qed.

End Responses.

Lemma send_headers_spec (hs : list (string * string)) (h : handler) :
  http09 h = false ->
  http09 (send_headers hs h) = false
  /\ wfile (send_headers hs h) = wfile h
  /\ headers_buffer (send_headers hs h)
     = (headers_buffer h
        ++ map (fun kv => Header (fst kv) (snd kv)) hs)%list.
Proof.
  revert h. induction hs as [|[k x] hs IH]; intros h H.
  - cbn. rewrite app_nil_r. auto.
  - cbn [send_headers fold_left fst snd].
    assert (E : send_header k x h = buffer (Header k x) h).
    { unfold send_header. rewrite H. reflexivity. }
    rewrite E.
    destruct (IH (buffer (Header k x) h) H) as (IH1 & IH2 & IH3).
    unfold send_headers in IH1, IH2, IH3. rewrite IH1, IH2, IH3.
    cbn [wfile headers_buffer buffer map fst snd].
    rewrite <- app_assoc. auto.
Qed.

Lemma built_response (lib : library) (code : Z) (message : string)
  (hs : list (string * string)) (h : handler) :
  http09 h = false ->
  wfile (PWAHandler.end_headers
           (send_headers hs (send_response lib code message h)))
  = (wfile h
     ++ [Head (headers_buffer h
               ++ StatusLine code message
                  :: server_headers lib
                  ++ map (fun kv => Header (fst kv) (snd kv)) hs
                  ++ fixed_headers ++ [EndOfHeaders])])%list.
Proof.
  destruct h as [c q v hd buf out]. unfold http09.
  cbn [request_version headers command path headers_buffer wfile].
  intros H.
  assert (E : send_response lib code message (Build_handler c q v hd buf out)
              = Build_handler c q v hd
                  (buf ++ StatusLine code message :: server_headers lib)%list
                  out).
  { run_response H. unfold server_headers.
    repeat rewrite <- app_assoc. reflexivity. }
  rewrite E.
  destruct (send_headers_spec hs
              (Build_handler c q v hd
                 (buf ++ StatusLine code message :: server_headers lib)%list
                 out) H) as (H1 & H2 & H3).
  rewrite (end_headers_spec _ H1). cbn [wfile]. rewrite H2, H3.
  cbn [wfile headers_buffer].
  repeat rewrite <- app_assoc. reflexivity.
Qed.

Lemma head_of_1x (v : string) (hd : chunk) :
  String.eqb v "HTTP/0.9" = false -> head_of v hd = [hd].
Proof. intros H. unfold head_of. rewrite H. reflexivity. Qed.

Lemma error_body_cases (lib : library) (cmd : string) (code : Z)
  (message : string) :
  error_body lib cmd code message = []
  \/ exists data, error_body lib cmd code message = [Body data].
Proof.
  unfold error_body.
  destruct (negb (String.eqb cmd "HEAD")
            && negb (String.eqb (error_page lib code message) ""));
    eauto.
Qed.

Lemma error_body_HEAD (lib : library) (code : Z) (message : string) :
  error_body lib "HEAD" code message = [].
Proof. reflexivity. Qed.

(** Every error response of the library, whatever its code, carries
    the header set. *)
Lemma send_error_shape (lib : library) (v : string)
  (hdrs : string -> option string) (cmd p : string) (code : Z)
  (message : string) :
  String.eqb v "HTTP/0.9" = false ->
  carries_fixed_headers
    (wfile (send_error PWAHandler.end_headers lib code message
              (request_of v hdrs cmd p))).
Proof.
  intros Hv. destruct (has_body code) eqn:Hb.
  - rewrite send_error_out by exact Hb. cbn [wfile answered].
    rewrite (head_of_1x _ _ Hv). do 4 eexists.
    split; [reflexivity | apply error_body_cases].
  - rewrite send_error_no_body by exact Hb. cbn [wfile answered].
    rewrite (head_of_1x _ _ Hv). do 4 eexists.
    split; [reflexivity | left; reflexivity].
Qed.

(** ** The answers of [send_head] *)

Lemma translate_path_simple (p : string) :
  Forall (fun w => SimpleHTTPRequestHandler.simple_name w = true)
    (fst (SimpleHTTPRequestHandler.translate_path p)).
Proof.
  unfold SimpleHTTPRequestHandler.translate_path. cbn [fst].
  apply Forall_forall. intros w Hw. apply filter_In in Hw. apply Hw.
Qed.

Lemma find_index_file (entries : list (string * node)) (pages : list string)
  (index : string) :
  SimpleHTTPRequestHandler.find_index entries pages = Some index ->
  exists mtime data, assoc index entries = Some (File mtime data).
Proof.
  induction pages as [|page pages IH]; simpl; [discriminate|].
  destruct (assoc page entries) as [[mtime data|sub]|] eqn:E; auto.
  intros [= <-]. eauto.
Qed.

Lemma find_index_In (entries : list (string * node)) (pages : list string)
  (index : string) :
  SimpleHTTPRequestHandler.find_index entries pages = Some index ->
  In index pages.
Proof.
  induction pages as [|page pages IH]; simpl; [discriminate|].
  destruct (assoc page entries) as [[mtime data|sub]|]; auto.
  intros [= <-]. left. reflexivity.
Qed.

Lemma index_pages_simple (index : string) :
  In index SimpleHTTPRequestHandler.index_pages ->
  SimpleHTTPRequestHandler.simple_name index = true.
Proof. intros [<-|[<-|[]]]; reflexivity. Qed.

Lemma node_at_child (fs : filesystem) (words : list string)
  (entries : list (string * node)) (name : string) :
  SimpleHTTPRequestHandler.node_at fs words = Some (Dir entries) ->
  SimpleHTTPRequestHandler.node_at fs (words ++ [name]) = assoc name entries.
Proof.
  unfold SimpleHTTPRequestHandler.node_at. intros H.
  rewrite app_assoc, lookup_app, H. simpl.
  destruct (assoc name entries); reflexivity.
Qed.

Lemma node_at_entry (fs : filesystem) (entries : list (string * node))
  (name : string) :
  SimpleHTTPRequestHandler.node_at fs [] = Some (Dir entries) ->
  SimpleHTTPRequestHandler.node_at fs [name] = assoc name entries.
Proof. apply (node_at_child fs []). Qed.

(** [send_head] gives one of its five answers; the head it buffers
    and the content it returns depend neither on the method nor on the
    version of the request. *)
Lemma send_head_uniform (lib : library) (fs : filesystem)
  (hdrs : string -> option string) (p : string) :
  exists hd f,
    forall v cmd, exists body,
      SimpleHTTPRequestHandler.send_head PWAHandler.end_headers lib fs
        (request_of v hdrs cmd p)
      = (answered (request_of v hdrs cmd p) (head_of v hd ++ body), f)
      /\ head_answer lib fs hdrs cmd p hd body f
      /\ (cmd = "HEAD" -> body = [])
      /\ (f <> None -> body = []).
Proof.
  pose proof (translate_path_simple p) as Hsimple.
  assert (Hmissing : exists hd f,
    forall v cmd, exists body,
      (send_error PWAHandler.end_headers lib 404 "File not found"
         (request_of v hdrs cmd p), @None string)
      = (answered (request_of v hdrs cmd p) (head_of v hd ++ body), f)
      /\ head_answer lib fs hdrs cmd p hd body f
      /\ (cmd = "HEAD" -> body = [])
      /\ (f <> None -> body = [])).
  { do 2 eexists. intros v cmd. eexists.
    rewrite send_error_out by reflexivity.
    split; [reflexivity|]. split; [apply answer_not_found|].
    split; [intros ->; reflexivity | congruence]. }
  assert (Hfile : forall words,
    Forall (fun w => SimpleHTTPRequestHandler.simple_name w = true) words ->
    exists hd f,
      forall v cmd, exists body,
        SimpleHTTPRequestHandler.send_file PWAHandler.end_headers lib fs
          words (request_of v hdrs cmd p)
        = (answered (request_of v hdrs cmd p) (head_of v hd ++ body), f)
        /\ head_answer lib fs hdrs cmd p hd body f
        /\ (cmd = "HEAD" -> body = [])
        /\ (f <> None -> body = [])).
  { intros words Hw.
    destruct (SimpleHTTPRequestHandler.node_at fs words)
      as [[mtime data|entries]|] eqn:E.
    - destruct (SimpleHTTPRequestHandler.not_modified lib hdrs mtime) eqn:Hm.
      + do 2 eexists. intros v cmd. exists [].
        rewrite (send_file_found _ _ _ _ _ _ _ _ _ E), app_nil_r.
        unfold file_head. rewrite Hm.
        split; [reflexivity|].
        split; [apply (answer_not_modified _ _ _ _ _ words mtime data);
                assumption | auto].
      + do 2 eexists. intros v cmd. exists [].
        rewrite (send_file_found _ _ _ _ _ _ _ _ _ E), app_nil_r.
        unfold file_head. rewrite Hm.
        split; [reflexivity|].
        split; [apply answer_file; assumption | auto].
    - do 2 eexists. intros v cmd. eexists.
      rewrite send_file_missing by (rewrite E; discriminate).
      split; [reflexivity|]. split; [apply answer_not_found|].
      split; [intros ->; reflexivity | congruence].
    - do 2 eexists. intros v cmd. eexists.
      rewrite send_file_missing by (rewrite E; discriminate).
      split; [reflexivity|]. split; [apply answer_not_found|].
      split; [intros ->; reflexivity | congruence]. }
  unfold SimpleHTTPRequestHandler.send_head. cbn [path request_of].
  destruct (SimpleHTTPRequestHandler.translate_path p)
    as [words trailing_slash].
  cbn [fst] in Hsimple.
  destruct (SimpleHTTPRequestHandler.node_at fs words)
    as [[mtime data|entries]|] eqn:E.
  - destruct trailing_slash; [exact Hmissing | apply Hfile, Hsimple].
  - destruct (negb (Py.endswith "/" (SimpleHTTPRequestHandler.url_path p))).
    + do 2 eexists. intros v cmd. exists []. rewrite redirect_out, app_nil_r.
      split; [reflexivity|].
      split; [apply (answer_redirect _ _ _ _ _ words entries E) | auto].
    + destruct (SimpleHTTPRequestHandler.find_index entries
                  SimpleHTTPRequestHandler.index_pages) as [index|] eqn:Ei.
      * apply Hfile. apply Forall_app. split; [exact Hsimple|].
        constructor; [|constructor].
        apply index_pages_simple, (find_index_In _ _ _ Ei).
      * do 2 eexists. intros v cmd. exists [].
        rewrite list_directory_out, app_nil_r.
        split; [reflexivity|].
        split; [apply (answer_listing _ _ _ _ _ words entries Hsimple E)
               | auto].
  - destruct trailing_slash; [exact Hmissing | apply Hfile, Hsimple].
Qed.

Lemma head_answer_head (lib : library) (fs : filesystem)
  (hdrs : string -> option string) (cmd p : string) (hd : chunk)
  (body : list chunk) (f : option string) :
  head_answer lib fs hdrs cmd p hd body f ->
  (exists code message hs, hd = response_head code message hs)
  /\ (body = [] \/ exists data, body = [Body data]).
Proof.
  intros H. destruct H; (split; [do 3 eexists; reflexivity|]);
    try (left; reflexivity). apply error_body_cases.
Qed.

Section Shapes.

Variable lib : library.
Variable fs : filesystem.
Variable v : string.
Variable hdrs : string -> option string.
Variables cmd p : string.
Hypothesis v_has_headers : String.eqb v "HTTP/0.9" = false.

Lemma do_GET_shape :
  carries_fixed_headers
    (wfile (SimpleHTTPRequestHandler.do_GET PWAHandler.end_headers lib fs
              (request_of v hdrs cmd p))).
Proof.
  unfold SimpleHTTPRequestHandler.do_GET.
  destruct (send_head_uniform lib fs hdrs p) as (hd & f & H).
  destruct (H v cmd) as (body & -> & Ha & _ & Hf).
  destruct (head_answer_head _ _ _ _ _ _ _ _ Ha)
    as ((code & message & hs & ->) & Hb).
  rewrite (head_of_1x _ _ v_has_headers).
  destruct f as [data|]; cbn [wfile answered write app].
  - rewrite Hf by discriminate.
    do 4 eexists. split; [reflexivity | right; eexists; reflexivity].
  - do 4 eexists. split; [reflexivity | exact Hb].
Qed.

Lemma do_HEAD_shape :
  carries_fixed_headers
    (wfile (SimpleHTTPRequestHandler.do_HEAD PWAHandler.end_headers lib fs
              (request_of v hdrs cmd p))).
Proof.
  unfold SimpleHTTPRequestHandler.do_HEAD.
  destruct (send_head_uniform lib fs hdrs p) as (hd & f & H).
  destruct (H v cmd) as (body & -> & Ha & _ & _).
  destruct (head_answer_head _ _ _ _ _ _ _ _ Ha)
    as ((code & message & hs & ->) & Hb).
  rewrite (head_of_1x _ _ v_has_headers). cbn [fst wfile answered app].
  do 4 eexists. split; [reflexivity | exact Hb].
Qed.

End Shapes.

Lemma rewrite_path_request_of (fs : filesystem) (v : string)
  (hdrs : string -> option string) (cmd p : string) :
  PWAHandler.rewrite_path fs (request_of v hdrs cmd p)
  = request_of v hdrs cmd
      (if PWAHandler.falls_back fs p then "/index.html" else p).
Proof.
  unfold PWAHandler.rewrite_path. cbn [path request_of].
  destruct (PWAHandler.falls_back fs p); reflexivity.
Qed.

Lemma rewrite_path_request (fs : filesystem) (cmd p : string) :
  PWAHandler.rewrite_path fs (request cmd p)
  = request cmd (if PWAHandler.falls_back fs p then "/index.html" else p).
Proof. apply rewrite_path_request_of. Qed.

(** Every response of the handler to a request of a version other
    than HTTP/0.9 carries the header set. *)
Lemma handle_shape (lib : library) (fs : filesystem) (v : string)
  (hdrs : string -> option string) (cmd p : string) :
  String.eqb v "HTTP/0.9" = false ->
  carries_fixed_headers
    (wfile (PWAHandler.handle lib fs (request_of v hdrs cmd p))).
Proof.
  intros Hv. unfold PWAHandler.handle. cbn [command request_of].
  destruct (String.eqb cmd "GET").
  - unfold PWAHandler.do_GET. rewrite rewrite_path_request_of.
    apply do_GET_shape, Hv.
  - destruct (String.eqb cmd "HEAD").
    + apply do_HEAD_shape, Hv.
    + apply send_error_shape, Hv.
Qed.

(** ** What [send_head] answers on plain paths *)

Section PlainPaths.

Variable lib : library.
Variable fs : filesystem.
Variable v : string.
Variable hdrs : string -> option string.
Variables cmd p : string.
Variable ws : list string.
Hypothesis ws_nonempty : ws <> [].
Hypothesis ws_plain : forallb plain_name ws = true.
Hypothesis p_names_ws : SimpleHTTPRequestHandler.url_path p = url_of ws.

Lemma send_head_file (mtime : Z) (data : string) :
  SimpleHTTPRequestHandler.node_at fs ws = Some (File mtime data) ->
  SimpleHTTPRequestHandler.send_head PWAHandler.end_headers lib fs
    (request_of v hdrs cmd p)
  = (answered (request_of v hdrs cmd p)
       (head_of v (file_head lib hdrs ws mtime data)),
     if SimpleHTTPRequestHandler.not_modified lib hdrs mtime
     then None else Some data).
Proof.
  intros Hn. unfold SimpleHTTPRequestHandler.send_head. cbn [path request_of].
  rewrite (translate_path_plain p ws ws_nonempty ws_plain p_names_ws), Hn.
  apply send_file_found, Hn.
Qed.

Lemma send_head_missing :
  SimpleHTTPRequestHandler.node_at fs ws = None ->
  SimpleHTTPRequestHandler.send_head PWAHandler.end_headers lib fs
    (request_of v hdrs cmd p)
  = (answered (request_of v hdrs cmd p)
       (head_of v (response_head 404 "File not found"
                     (error_headers lib 404 "File not found"))
        ++ error_body lib cmd 404 "File not found"),
     None).
Proof.
  intros Hn. unfold SimpleHTTPRequestHandler.send_head. cbn [path request_of].
  rewrite (translate_path_plain p ws ws_nonempty ws_plain p_names_ws), Hn.
  apply send_file_missing. rewrite Hn. discriminate.
Qed.

(** The inherited [do_GET] on the plain path of a regular file. *)
Lemma do_GET_file (mtime : Z) (data : string) :
  SimpleHTTPRequestHandler.node_at fs ws = Some (File mtime data) ->
  wfile (SimpleHTTPRequestHandler.do_GET PWAHandler.end_headers lib fs
           (request_of v hdrs cmd p))
  = (head_of v (file_head lib hdrs ws mtime data)
     ++ file_body lib hdrs mtime data)%list.
Proof.
  intros Hn. unfold SimpleHTTPRequestHandler.do_GET, file_body.
  rewrite (send_head_file mtime data Hn).
  destruct (SimpleHTTPRequestHandler.not_modified lib hdrs mtime);
    cbn [wfile answered write]; [rewrite app_nil_r|]; reflexivity.
Qed.

Lemma do_GET_absent :
  SimpleHTTPRequestHandler.node_at fs ws = None ->
  wfile (SimpleHTTPRequestHandler.do_GET PWAHandler.end_headers lib fs
           (request_of v hdrs cmd p))
  = (head_of v (response_head 404 "File not found"
                  (error_headers lib 404 "File not found"))
     ++ error_body lib cmd 404 "File not found")%list.
Proof.
  intros Hn. unfold SimpleHTTPRequestHandler.do_GET.
  rewrite (send_head_missing Hn). reflexivity.
Qed.

End PlainPaths.

Lemma node_at_stat (fs : filesystem) (ws : list string) :
  ws <> [] -> forallb plain_name ws = true ->
  SimpleHTTPRequestHandler.node_at fs ws = Posix.stat fs (Py.tail (url_of ws)).
Proof.
  intros Hne H. symmetry. apply stat_plain; assumption.
Qed.

Lemma stat_found_nonempty (fs : filesystem) (ws : list string) (n : node) :
  Posix.stat fs (Py.tail (url_of ws)) = Some n -> ws <> [].
Proof. intros H ->. discriminate H. Qed.

(** ** The rewrite condition *)

Lemma exists_iff_stat (fs : filesystem) (s : string) :
  os_path.exists_ fs s = false <-> Posix.stat fs s = None.
Proof.
  unfold os_path.exists_. destruct (Posix.stat fs s); split; congruence.
Qed.

Lemma falls_back_iff (fs : filesystem) (p : string) :
  PWAHandler.falls_back fs p = true
  <-> p = "/" \/ Posix.stat fs (Py.tail p) = None.
Proof.
  unfold PWAHandler.falls_back.
  rewrite orb_true_iff, String.eqb_eq, negb_true_iff, exists_iff_stat.
  reflexivity.
Qed.

Lemma falls_back_found (fs : filesystem) (p : string) (n : node) :
  Posix.stat fs (Py.tail p) = Some n -> PWAHandler.falls_back fs p = false.
Proof.
  intros H. destruct (PWAHandler.falls_back fs p) eqn:E; [|reflexivity].
  apply falls_back_iff in E as [->|E]; [discriminate H | congruence].
Qed.

Lemma falls_back_missing (fs : filesystem) (p : string) :
  Posix.stat fs (Py.tail p) = None -> PWAHandler.falls_back fs p = true.
Proof. intros H. apply falls_back_iff. right. exact H. Qed.

Lemma do_GET_missing_of (lib : library) (fs : filesystem) (v : string)
  (hdrs : string -> option string) (p : string) :
  Posix.stat fs (Py.tail p) = None ->
  PWAHandler.do_GET lib fs (request_of v hdrs "GET" p)
  = SimpleHTTPRequestHandler.do_GET PWAHandler.end_headers lib fs
      (request_of v hdrs "GET" "/index.html").
Proof.
  intros H. unfold PWAHandler.do_GET.
  rewrite rewrite_path_request_of, (falls_back_missing _ _ H). reflexivity.
Qed.

Lemma do_GET_missing (lib : library) (fs : filesystem) (p : string) :
  Posix.stat fs (Py.tail p) = None ->
  PWAHandler.do_GET lib fs (request "GET" p)
  = SimpleHTTPRequestHandler.do_GET PWAHandler.end_headers lib fs
      (request "GET" "/index.html").
Proof. apply do_GET_missing_of. Qed.

Lemma do_GET_found (lib : library) (fs : filesystem) (h : handler) (n : node) :
  Posix.stat fs (Py.tail (path h)) = Some n ->
  PWAHandler.rewrite_path fs h = h
  /\ PWAHandler.do_GET lib fs h
     = SimpleHTTPRequestHandler.do_GET PWAHandler.end_headers lib fs h.
Proof.
  intros H. unfold PWAHandler.do_GET, PWAHandler.rewrite_path.
  rewrite (falls_back_found _ _ _ H). split; reflexivity.
Qed.

Lemma index_html_plain : forallb plain_name ["index.html"] = true.
Proof. reflexivity. Qed.

Lemma index_html_nonempty : ["index.html"] <> [].
Proof. discriminate. Qed.

(** The inherited [do_GET] on [/index.html]. *)
Lemma do_GET_index_file (lib : library) (fs : filesystem) (v : string)
  (hdrs : string -> option string) (mtime : Z) (data : string) :
  SimpleHTTPRequestHandler.node_at fs ["index.html"] = Some (File mtime data) ->
  wfile (SimpleHTTPRequestHandler.do_GET PWAHandler.end_headers lib fs
           (request_of v hdrs "GET" "/index.html"))
  = (head_of v (file_head lib hdrs ["index.html"] mtime data)
     ++ file_body lib hdrs mtime data)%list.
Proof.
  apply (do_GET_file lib fs v hdrs "GET" "/index.html" ["index.html"]
           index_html_nonempty index_html_plain eq_refl).
Qed.

Lemma do_GET_index_missing (lib : library) (fs : filesystem) (v : string)
  (hdrs : string -> option string) :
  SimpleHTTPRequestHandler.node_at fs ["index.html"] = None ->
  wfile (SimpleHTTPRequestHandler.do_GET PWAHandler.end_headers lib fs
           (request_of v hdrs "GET" "/index.html"))
  = (head_of v (response_head 404 "File not found"
                  (error_headers lib 404 "File not found"))
     ++ error_body lib "GET" 404 "File not found")%list.
Proof.
  apply (do_GET_absent lib fs v hdrs "GET" "/index.html" ["index.html"]
           index_html_nonempty index_html_plain eq_refl).
Qed.

(** ** Paths that stay inside the served directory *)

Lemma split_nonempty (c : ascii) (s : string) : Py.split c s <> [].
Proof.
  induction s as [|a s IH]; simpl; [discriminate|].
  destruct (Ascii.eqb a c); [discriminate|].
  destruct (Py.split c s); discriminate.
Qed.

Lemma split_snoc (c : ascii) (s : string) :
  Py.split c (s ++ String c "") = (Py.split c s ++ [""])%list.
Proof.
  induction s as [|a s IH]; simpl.
  - rewrite Ascii.eqb_refl. reflexivity.
  - destruct (Ascii.eqb a c); rewrite IH; [reflexivity|].
    pose proof (split_nonempty c s) as Hne.
    destruct (Py.split c s); [congruence | reflexivity].
Qed.

Lemma endswith_snoc (c : ascii) (s : string) :
  Py.endswith c s = true -> exists s', s = (s' ++ String c "")%string.
Proof.
  induction s as [|a s IH]; [discriminate|].
  destruct s as [|b s].
  - simpl. intros H. apply Ascii.eqb_eq in H. subst a.
    exists "". reflexivity.
  - intros H. change (Py.endswith c (String b s) = true) in H.
    destruct (IH H) as [s' E]. exists (String a s'). simpl. rewrite <- E.
    reflexivity.
Qed.

Lemma walk_app (fs : filesystem) (a b pos : list string) :
  Posix.walk fs pos (a ++ b)
  = match Posix.walk fs pos a with
    | Some pos' => Posix.walk fs pos' b
    | None => None
    end.
Proof.
  revert pos. induction a as [|w a IH]; intros pos; simpl; [reflexivity|].
  destruct (Posix.step fs pos w); [apply IH | reflexivity].
Qed.

Lemma stat_relative (fs : filesystem) (s : string) :
  s <> "" -> SimpleHTTPRequestHandler.starts_with_slash s = false ->
  Posix.stat fs s
  = match Posix.walk fs (cwd fs) (Py.split "/" s) with
    | Some pos => lookup (root fs) pos
    | None => None
    end.
Proof.
  destruct s as [|a s]; [congruence|]. intros _ Ha.
  unfold Posix.stat. simpl in Ha. rewrite Ha. reflexivity.
Qed.

(** A pathname that ends with a slash names a directory or nothing. *)
Lemma walk_trailing_empty (fs : filesystem) (cs pos pos' : list string) :
  Posix.walk fs pos (cs ++ [""]) = Some pos' ->
  exists entries, lookup (root fs) pos' = Some (Dir entries).
Proof.
  rewrite walk_app. destruct (Posix.walk fs pos cs) as [q|]; [|discriminate].
  simpl. unfold Posix.step.
  destruct (lookup (root fs) q) as [[|entries]|] eqn:E; try discriminate.
  simpl. intros [= <-]. eauto.
Qed.

Lemma concat_component_chars (cs : list string) :
  forallb (all_chars plain_char) cs = true ->
  all_chars path_char (String.concat "/" cs) = true.
Proof.
  induction cs as [|c cs IH]; [reflexivity|].
  intros H. simpl in H. apply andb_true_iff in H as [Hc Hcs].
  pose proof (all_chars_weaken _ _ _ plain_char_path_char Hc) as Hc'.
  destruct cs as [|c' r]; [exact Hc'|].
  change (String.concat "/" (c :: c' :: r))
    with (c ++ String "/" (String.concat "/" (c' :: r))).
  rewrite all_chars_app, Hc', andb_true_l.
  change (path_char "/"
          && all_chars path_char (String.concat "/" (c' :: r)) = true).
  rewrite (IH Hcs). reflexivity.
Qed.

Lemma split_concat_components (cs : list string) :
  cs <> [] -> forallb (all_chars plain_char) cs = true ->
  Py.split "/" (String.concat "/" cs) = cs.
Proof.
  induction cs as [|c cs IH]; [congruence|].
  intros _ H. simpl in H. apply andb_true_iff in H as [Hc Hcs].
  assert (Hs : Py.contains "/" c = false).
  { apply (all_chars_absent plain_char); [reflexivity | exact Hc]. }
  destruct cs as [|c' r].
  - simpl. apply split_absent, Hs.
  - change (String.concat "/" (c :: c' :: r))
      with (c ++ String "/" (String.concat "/" (c' :: r))).
    rewrite (split_app _ _ _ Hs), IH; [reflexivity | discriminate | exact Hcs].
Qed.

Lemma normpath_loop_abs_simple (cs new_comps : list string) :
  Forall (fun w => SimpleHTTPRequestHandler.simple_name w = true) new_comps ->
  Forall (fun w => SimpleHTTPRequestHandler.simple_name w = true)
    (SimpleHTTPRequestHandler.normpath_loop true new_comps cs).
Proof.
  revert new_comps. induction cs as [|c cs IH]; intros acc Hacc; simpl.
  - apply Forall_rev, Hacc.
  - destruct (String.eqb c "" || String.eqb c ".") eqn:E1; [apply IH, Hacc|].
    destruct (String.eqb c "..") eqn:E2; simpl.
    + destruct acc as [|a acc]; [apply IH, Hacc|].
      inversion Hacc as [|? ? Ha Hacc']; subst.
      assert (Ea : String.eqb a ".." = false).
      { unfold SimpleHTTPRequestHandler.simple_name in Ha.
        apply negb_true_iff, orb_false_iff in Ha. apply Ha. }
      rewrite Ea. apply IH, Hacc'.
    + apply IH. constructor; [|exact Hacc].
      unfold SimpleHTTPRequestHandler.simple_name. rewrite E1, E2.
      reflexivity.
Qed.

(** The walk of the operating system and the normalisation of the
    library agree on components that stay inside. *)
Lemma walk_inside (fs : filesystem) (base : list string) (cs : list string) :
  forall (new_comps pos : list string),
    Forall (fun w => SimpleHTTPRequestHandler.simple_name w = true)
      new_comps ->
    stays_inside (List.length new_comps) cs = true ->
    Posix.walk fs (base ++ rev new_comps) cs = Some pos ->
    pos = (base
           ++ SimpleHTTPRequestHandler.normpath_loop true new_comps cs)%list.
Proof.
  induction cs as [|c cs IH]; intros acc pos Hacc Hin Hw.
  - simpl in Hw. injection Hw as <-. reflexivity.
  - simpl in Hw, Hin. unfold Posix.step in Hw.
    destruct (lookup (root fs) (base ++ rev acc)) as [[|entries]|];
      try discriminate.
    cbn [SimpleHTTPRequestHandler.normpath_loop].
    destruct (String.eqb c "" || String.eqb c ".") eqn:E1.
    + apply IH; assumption.
    + destruct (String.eqb c "..") eqn:E2; simpl.
      * destruct acc as [|a acc]; [discriminate Hin|].
        inversion Hacc as [|? ? Ha Hacc']; subst.
        assert (Ea : String.eqb a ".." = false).
        { unfold SimpleHTTPRequestHandler.simple_name in Ha.
          apply negb_true_iff, orb_false_iff in Ha. apply Ha. }
        rewrite Ea. apply IH; [exact Hacc' | exact Hin|].
        simpl rev in Hw. rewrite app_assoc, removelast_last in Hw. exact Hw.
      * destruct (assoc c entries); [|discriminate].
        apply IH.
        -- constructor; [|exact Hacc].
           unfold SimpleHTTPRequestHandler.simple_name. rewrite E1, E2.
           reflexivity.
        -- exact Hin.
        -- simpl rev. rewrite app_assoc. exact Hw.
Qed.

Section InsidePaths.

Variable fs : filesystem.
Variable cs : list string.
Variables (mtime : Z) (data : string).
Hypothesis cs_chars : forallb (all_chars plain_char) cs = true.
Hypothesis cs_inside : stays_inside 0 cs = true.
Hypothesis cs_relative :
  SimpleHTTPRequestHandler.starts_with_slash (String.concat "/" cs) = false.
Hypothesis cs_file :
  Posix.stat fs (Py.tail (url_of cs)) = Some (File mtime data).

Lemma inside_nonempty : String.concat "/" cs <> "" /\ cs <> [].
Proof.
  assert (H : String.concat "/" cs <> "").
  { intros E. unfold url_of in cs_file. cbn [append Py.tail] in cs_file.
    rewrite E in cs_file. discriminate cs_file. }
  split; [exact H|]. intros ->. apply H. reflexivity.
Qed.

Lemma inside_walk :
  exists pos,
    Posix.walk fs (cwd fs) cs = Some pos
    /\ lookup (root fs) pos = Some (File mtime data).
Proof.
  destruct inside_nonempty as [Hs Hne].
  pose proof cs_file as H. unfold url_of in H. cbn [append Py.tail] in H.
  rewrite (stat_relative fs _ Hs cs_relative) in H.
  rewrite (split_concat_components cs Hne cs_chars) in H.
  destruct (Posix.walk fs (cwd fs) cs) as [pos|]; [|discriminate].
  eauto.
Qed.

Lemma inside_node :
  SimpleHTTPRequestHandler.node_at fs
    (SimpleHTTPRequestHandler.normpath_loop true [] cs)
  = Some (File mtime data).
Proof.
  destruct inside_walk as (pos & Hw & Hl).
  unfold SimpleHTTPRequestHandler.node_at.
  rewrite <- (walk_inside fs (cwd fs) cs [] pos); auto.
  simpl. rewrite app_nil_r. exact Hw.
Qed.

Lemma inside_no_trailing_slash : Py.endswith "/" (url_of cs) = false.
Proof.
  destruct inside_nonempty as [Hs Hne].
  unfold url_of.
  change ("/" ++ String.concat "/" cs)
    with (String "/" (String.concat "/" cs)).
  rewrite endswith_cons by exact Hs.
  destruct (Py.endswith "/" (String.concat "/" cs)) eqn:E; [|reflexivity].
  destruct (endswith_snoc _ _ E) as [s' Es'].
  destruct inside_walk as (pos & Hw & Hl).
  rewrite <- (split_concat_components cs Hne cs_chars), Es', split_snoc in Hw.
  destruct (walk_trailing_empty _ _ _ _ Hw) as [entries Hd].
  congruence.
Qed.

Lemma translate_path_inside (p : string) :
  SimpleHTTPRequestHandler.url_path p = url_of cs ->
  SimpleHTTPRequestHandler.translate_path p
  = (SimpleHTTPRequestHandler.normpath_loop true [] cs, false).
Proof.
  intros Hp. destruct inside_nonempty as [Hs Hne].
  assert (Hc : all_chars path_char (url_of cs) = true).
  { unfold url_of. simpl. apply concat_component_chars, cs_chars. }
  unfold SimpleHTTPRequestHandler.translate_path. rewrite Hp.
  rewrite (rstrip_plain _ Hc), inside_no_trailing_slash.
  rewrite unquote_absent
    by (apply (all_chars_absent path_char); [reflexivity | exact Hc]).
  unfold url_of at 1 2.
  change ("/" ++ String.concat "/" cs)
    with (String "/" (String.concat "/" cs)).
  cbn [SimpleHTTPRequestHandler.starts_with_slash Py.split].
  rewrite Ascii.eqb_refl, (split_concat_components cs Hne cs_chars).
  cbn [SimpleHTTPRequestHandler.normpath_loop String.eqb orb].
  rewrite filter_simple; [reflexivity|].
  apply forallb_forall. apply Forall_forall.
  apply normpath_loop_abs_simple. constructor.
Qed.

Lemma url_path_inside :
  SimpleHTTPRequestHandler.url_path (url_of cs) = url_of cs.
Proof.
  assert (Hc : all_chars path_char (url_of cs) = true).
  { unfold url_of. simpl. apply concat_component_chars, cs_chars. }
  unfold SimpleHTTPRequestHandler.url_path.
  rewrite (before_absent "?"), (before_absent "#");
    try reflexivity; apply (all_chars_absent path_char); auto.
Qed.

Variable lib : library.
Variable v : string.
Variable hdrs : string -> option string.
Variable cmd : string.

(** The inherited [do_GET] on a path that stays inside: the file the
    existence check has seen is the file that is answered. *)
Lemma do_GET_inside :
  wfile (SimpleHTTPRequestHandler.do_GET PWAHandler.end_headers lib fs
           (request_of v hdrs cmd (url_of cs)))
  = (head_of v (file_head lib hdrs
                  (SimpleHTTPRequestHandler.normpath_loop true [] cs)
                  mtime data)
     ++ file_body lib hdrs mtime data)%list.
Proof.
  unfold SimpleHTTPRequestHandler.do_GET, SimpleHTTPRequestHandler.send_head,
    file_body.
  cbn [path request_of].
  rewrite (translate_path_inside (url_of cs) url_path_inside), inside_node.
  rewrite (send_file_found lib fs v hdrs cmd (url_of cs) _ mtime data
             inside_node).
  destruct (SimpleHTTPRequestHandler.not_modified lib hdrs mtime);
    cbn [wfile answered write]; [rewrite app_nil_r|]; reflexivity.
Qed.

End InsidePaths.

(** * The claims *)

(** ** C1: when the path is replaced *)

(** C1, as stated, fails on a directory: no regular file exists at
    [static], which is a directory of the served tree, and the handler
    keeps the path [/static] instead of replacing it. *)
Lemma directory_path_is_kept :
  os_path.isfile site (Py.tail "/static") = false
  /\ os_path.isdir site (Py.tail "/static") = true
  /\ PWAHandler.falls_back site "/static" = false
  /\ path (PWAHandler.rewrite_path site (request "GET" "/static")) = "/static".
Proof. repeat split; reflexivity. Qed.

(** C1, amended: the handler replaces the path with [/index.html] if
    and only if the path is [/] or nothing at all, neither a file nor a
    directory, exists at the path without its first character; the
    path handed on is [/index.html] in that case and the request path
    otherwise, and a path that names an existing directory is kept. *)
Theorem path_replaced_iff_nothing_exists (fs : filesystem) (h : handler) :
  (PWAHandler.falls_back fs (path h) = true
   <-> path h = "/" \/ Posix.stat fs (Py.tail (path h)) = None)
  /\ path (PWAHandler.rewrite_path fs h)
     = (if PWAHandler.falls_back fs (path h) then "/index.html" else path h)
  /\ (forall entries,
        Posix.stat fs (Py.tail (path h)) = Some (Dir entries) ->
        PWAHandler.rewrite_path fs h = h).
Proof.
  split; [apply falls_back_iff|]. split.
  - unfold PWAHandler.rewrite_path.
    destruct (PWAHandler.falls_back fs (path h)); reflexivity.
  - intros entries H. unfold PWAHandler.rewrite_path.
    rewrite (falls_back_found _ _ _ H). reflexivity.
Qed.

Lemma path_replaced_iff_nothing_exists_witness :
  Posix.stat site (Py.tail "/static")
  = Some (Dir [("style.css", File 3 "css")])
  /\ PWAHandler.rewrite_path site (request "GET" "/static")
     = request "GET" "/static".
Proof.
  split; [reflexivity|].
  exact (proj2 (proj2 (path_replaced_iff_nothing_exists site
                         (request "GET" "/static"))) _ eq_refl).
Defined.

(** ** C2: the header set *)




(** ** C8: the test for the root path *)

(** C8: the condition of the handler equals the existence test alone,
    because the path [/] without its first character is the empty
    string, which names nothing; the handler and the handler without
    the test for the root path are equal on every request. *)
Theorem root_test_is_redundant :
  (forall fs : filesystem, os_path.exists_ fs (Py.tail "/") = false)
  /\ (forall (fs : filesystem) (p : string),
        PWAHandler.falls_back fs p = negb (os_path.exists_ fs (Py.tail p)))
  /\ (forall (lib : library) (fs : filesystem) (h : handler),
        PWAHandler.do_GET lib fs h = do_GET_without_root_test lib fs h).
Proof.
  assert (H : forall fs p,
             PWAHandler.falls_back fs p
             = negb (os_path.exists_ fs (Py.tail p))).
  { intros fs p. unfold PWAHandler.falls_back.
    destruct (String.eqb_spec p "/") as [->|_]; reflexivity. }
  split; [reflexivity|]. split; [exact H|].
  intros lib fs h.
  unfold PWAHandler.do_GET, do_GET_without_root_test, PWAHandler.rewrite_path.
  rewrite H. reflexivity.
Qed.

(** ** C4: the port *)

Lemma run_eta (r : run) :
  {| stdout := [] ++ stdout r; exit_code := exit_code r |} = r.
Proof. destruct r; reflexivity. Qed.

(** C4: with a first argument that parses as an integer the script
    runs [main] with that integer, with a first argument that does not
    parse it prints the warning and runs [main] with 8000, and with no
    argument it runs [main] with 8000; and [main] binds the listener to
    the port it is given: what the bind of that port raises ends the
    run in the handlers of [main], and where it raises nothing the
    banner names that port and the server serves. The arguments
    ["8080"] and ["abc"] of the specification are instances. *)
Theorem port_selection (u : Py.unicode) (env : run_env) (prog : string) :
  (forall (arg : string) (rest : list string) (n : Z),
      Py.int u arg = Some n ->
      select_port u (prog :: arg :: rest) = ([], n)
      /\ script u env (prog :: arg :: rest) = main env n)
  /\ (forall (arg : string) (rest : list string),
        Py.int u arg = None ->
        select_port u (prog :: arg :: rest)
        = (["❌ Invalid port number. Using default port 8000."], 8000)
        /\ stdout (script u env (prog :: arg :: rest))
           = "❌ Invalid port number. Using default port 8000."
             :: stdout (main env 8000)
        /\ exit_code (script u env (prog :: arg :: rest))
           = exit_code (main env 8000))
  /\ (select_port u [prog] = ([], 8000)
      /\ script u env [prog] = main env 8000)
  /\ select_port u [prog; "8080"] = ([], 8080)
  /\ select_port u [prog; "abc"]
     = (["❌ Invalid port number. Using default port 8000."], 8000)
  /\ (forall port : Z,
        (forall e : exn,
            bind env port = Some e -> main env port = main_except port e)
        /\ (bind env port = None ->
            serve_forever env = None ->
            main env port = {| stdout := banner port; exit_code := None |})
        /\ (forall e : exn,
              bind env port = None ->
              serve_forever env = Some e ->
              main env port
              = {| stdout := (banner port
                              ++ stdout (main_except port e))%list;
                   exit_code := exit_code (main_except port e) |})).
Proof.
  split; [|split; [|split; [|split; [|split]]]].
  - intros arg rest n H. unfold script, select_port. rewrite H.
    split; [reflexivity | apply run_eta].
  - intros arg rest H. unfold script, select_port. rewrite H.
    repeat split.
  - unfold script, select_port. split; [reflexivity | apply run_eta].
  - reflexivity.
  - reflexivity.
  - intros port. unfold main, main_try. repeat split.
    + intros e H. rewrite H. apply run_eta.
    + intros Hb Hs. rewrite Hb, Hs. reflexivity.
    + intros e Hb Hs. rewrite Hb, Hs. reflexivity.
Qed.

Lemma port_selection_witness :
  script no_unicode (port_in_use Darwin) ["server.py"; "8080"]
  = main (port_in_use Darwin) 8080
  /\ stdout (script no_unicode (port_in_use Darwin) ["server.py"; "abc"])
     = "❌ Invalid port number. Using default port 8000."
       :: stdout (main (port_in_use Darwin) 8000)
  /\ main (port_in_use Darwin) 8080
     = main_except 8080 (OSError 48 "Address already in use").
Proof.
  split; [|split].
  - exact (proj2 (proj1 (port_selection no_unicode (port_in_use Darwin)
                           "server.py") "8080" [] 8080 eq_refl)).
  - exact (proj1 (proj2 (proj1 (proj2
             (port_selection no_unicode (port_in_use Darwin) "server.py"))
             "abc" [] eq_refl))).
  - exact (proj1 (proj2 (proj2 (proj2 (proj2 (proj2
             (port_selection no_unicode (port_in_use Darwin) "server.py")))))
             8080) _ eq_refl).
Defined.

(** ** C5: the port in use *)

(** C5 at the failing input: on Linux, where the errno of a port in
    use is 98, the run prints the general message, which names no port
    and suggests none, and exits with code 1. *)
Theorem port_in_use_on_linux :
  main (port_in_use Linux) 8000
  = {| stdout :=
         ["❌ Error starting server: [Errno 98] Address already in use"];
       exit_code := Some 1 |}.
Proof. reflexivity. Qed.

(** Where the errno of a port in use is 48, the run names the port and
    suggests the next one. *)
Lemma port_in_use_on_darwin (port : Z) :
  main (port_in_use Darwin) port
  = {| stdout :=
         [ "❌ Port " ++ Py.str port
             ++ " is already in use. Try a different port.";
           "💡 You can specify a different port: python3 server.py "
             ++ Py.str (port + 1) ];
       exit_code := Some 1 |}.
Proof. reflexivity. Qed.

(** ** C6: the exit codes *)

(** C6: a run whose listener is bound and whose accept loop is ended
    by an interrupt prints the banner and the shutdown message and
    exits with code 0; a run whose bind raises an OS error, with any
    errno, prints a diagnostic and exits with code 1. *)
Theorem exit_codes (env : run_env) (port : Z) :
  (bind env port = None ->
   serve_forever env = Some KeyboardInterrupt ->
   main env port
   = {| stdout :=
          (banner port ++ [(LF ++ "🛑 Server stopped by user")%string])%list;
        exit_code := Some 0 |})
  /\ (forall (errno : Z) (strerror : string),
        bind env port = Some (OSError errno strerror) ->
        exit_code (main env port) = Some 1
        /\ stdout (main env port)
           = stdout (main_except port (OSError errno strerror))
        /\ stdout (main env port) <> []).
Proof.
  split.
  - intros Hb Hs. unfold main, main_try. rewrite Hb, Hs. reflexivity.
  - intros errno strerror Hb. unfold main, main_try. rewrite Hb.
    repeat split. simpl. destruct (errno =? 48); discriminate.
Qed.

Lemma exit_codes_witness :
  main {| bind := fun _ => None; serve_forever := Some KeyboardInterrupt |}
    8000
  = {| stdout :=
         (banner 8000 ++ [(LF ++ "🛑 Server stopped by user")%string])%list;
       exit_code := Some 0 |}
  /\ exit_code (main (port_in_use Linux) 8000) = Some 1.
Proof.
  split.
  - exact (proj1 (exit_codes
             {| bind := fun _ => None;
                serve_forever := Some KeyboardInterrupt |} 8000)
             eq_refl eq_refl).
  - exact (proj1 (proj2 (exit_codes (port_in_use Linux) 8000)
                    98 "Address already in use" eq_refl)).
Defined.


(** ** C3: an existing file *)

Lemma append_empty_r (s : string) : (s ++ "")%string = s.
Proof. induction s as [|a s IH]; cbn [append]; congruence. Qed.

Lemma body_of_file (v : string) (hd : list line) (data : string) :
  body_of (head_of v (Head hd) ++ [Body data]) = data.
Proof.
  unfold head_of. destruct (String.eqb v "HTTP/0.9"); cbn [app body_of];
    apply append_empty_r.
Qed.

Lemma not_modified_unconditional (lib : library)
  (hdrs : string -> option string) (mtime : Z) :
  hdrs "If-Modified-Since" = None ->
  SimpleHTTPRequestHandler.not_modified lib hdrs mtime = false.
Proof.
  intros H. unfold SimpleHTTPRequestHandler.not_modified. rewrite H.
  reflexivity.
Qed.




(** ** C7: the fallback and the missing document *)

Lemma do_GET_index_directory (lib : library) (fs : filesystem) (v : string)
  (hdrs : string -> option string) (entries : list (string * node)) :
  SimpleHTTPRequestHandler.node_at fs ["index.html"] = Some (Dir entries) ->
  wfile (SimpleHTTPRequestHandler.do_GET PWAHandler.end_headers lib fs
           (request_of v hdrs "GET" "/index.html"))
  = head_of v (response_head 301 "Moved Permanently"
                 (redirect_headers lib "/index.html")).
Proof.
  intros Hn.
  unfold SimpleHTTPRequestHandler.do_GET, SimpleHTTPRequestHandler.send_head.
  cbn [path request_of].
  rewrite (translate_path_plain "/index.html" ["index.html"]
             index_html_nonempty index_html_plain eq_refl), Hn.
  change (negb (Py.endswith "/"
                  (SimpleHTTPRequestHandler.url_path "/index.html")))
    with true.
  cbv iota. rewrite redirect_out. reflexivity.
Qed.




(** ** C9: the query string *)




(** ** C10: requests other than GET *)

Lemma translate_path_root :
  SimpleHTTPRequestHandler.translate_path "/" = ([], true).
Proof. reflexivity. Qed.

(** The inherited [send_head] on the root path of a served directory:
    the first index page that is a regular file, or the listing. *)
Lemma send_head_root (lib : library) (fs : filesystem) (v : string)
  (hdrs : string -> option string) (cmd : string)
  (entries : list (string * node)) :
  SimpleHTTPRequestHandler.node_at fs [] = Some (Dir entries) ->
  SimpleHTTPRequestHandler.send_head PWAHandler.end_headers lib fs
    (request_of v hdrs cmd "/")
  = match SimpleHTTPRequestHandler.find_index entries
            SimpleHTTPRequestHandler.index_pages with
    | Some index =>
        SimpleHTTPRequestHandler.send_file PWAHandler.end_headers lib fs
          [index] (request_of v hdrs cmd "/")
    | None =>
        SimpleHTTPRequestHandler.list_directory PWAHandler.end_headers lib
          entries (request_of v hdrs cmd "/")
    end.
Proof.
  intros Hn. unfold SimpleHTTPRequestHandler.send_head.
  cbn [path request_of]. rewrite translate_path_root, Hn.
  change (negb (Py.endswith "/" (SimpleHTTPRequestHandler.url_path "/")))
    with false.
  cbv iota. reflexivity.
Qed.

Lemma not_a_file (entries : list (string * node)) (name : string) :
  (forall mtime data, assoc name entries <> Some (File mtime data)) ->
  match assoc name entries with
  | Some (File _ _) => true
  | _ => false
  end = false.
Proof.
  intros H. destruct (assoc name entries) as [[mtime data|sub]|];
    [destruct (H mtime data) | |]; reflexivity.
Qed.

Lemma find_index_cases (entries : list (string * node)) :
  SimpleHTTPRequestHandler.find_index entries
    SimpleHTTPRequestHandler.index_pages
  = if match assoc "index.html" entries with
       | Some (File _ _) => true
       | _ => false
       end
    then Some "index.html"
    else if match assoc "index.htm" entries with
            | Some (File _ _) => true
            | _ => false
            end
         then Some "index.htm"
         else None.
Proof.
  unfold SimpleHTTPRequestHandler.index_pages.
  cbn [SimpleHTTPRequestHandler.find_index].
  destruct (assoc "index.html" entries) as [[m d|sub]|];
    destruct (assoc "index.htm" entries) as [[m' d'|sub']|]; reflexivity.
Qed.




(** * Further properties *)

(** ** [int] and [str] *)

Lemma digits_of_uint_acc (d : Decimal.uint) (acc : positive) :
  Py.digits (Zpos acc) true
    (list_ascii_of_string (NilEmpty.string_of_uint d))
  = Some (Zpos (Pos.of_uint_acc d acc)).
Proof.
  revert acc. induction d; intros acc; [reflexivity| ..];
    cbn [NilEmpty.string_of_uint list_ascii_of_string Py.digits
         Pos.of_uint_acc];
    change (Py.is_digit _) with true; cbv iota;
    rewrite <- IHd; f_equal;
    try (match goal with
         | |- context [Py.digit_val ?c] =>
             let v := eval vm_compute in (Py.digit_val c) in
             change (Py.digit_val c) with v
         end; lia).
Qed.

Lemma digits_of_uint (d : Decimal.uint) :
  Py.digits 0 true (list_ascii_of_string (NilEmpty.string_of_uint d))
  = Some (Z.of_N (Pos.of_uint d)).
Proof.
  induction d; [reflexivity| ..];
    cbn [NilEmpty.string_of_uint list_ascii_of_string Py.digits Pos.of_uint];
    change (Py.is_digit _) with true; cbv iota;
    first [ exact IHd | apply digits_of_uint_acc ].
Qed.

Lemma uint_chars_are_digits (d : Decimal.uint) (a : ascii) :
  In a (list_ascii_of_string (NilEmpty.string_of_uint d)) ->
  Py.is_digit a = true.
Proof.
  induction d; simpl; [contradiction| ..]; intros [<-|H]; auto.
Qed.

Lemma digit_is_not_int_space (a : ascii) :
  Py.is_digit a = true -> Py.is_int_space a = false.
Proof.
  unfold Py.is_digit, Py.is_int_space. intros H.
  apply andb_true_iff in H as [H1 H2].
  apply Nat.leb_le in H1. apply Nat.leb_le in H2.
  apply orb_false_iff. split.
  - apply andb_false_iff. right. apply Nat.leb_gt. lia.
  - apply Nat.eqb_neq. lia.
Qed.

Lemma digit_is_ascii (a : ascii) :
  Py.is_digit a = true -> Py.is_ascii_char a = true.
Proof.
  unfold Py.is_digit, Py.is_ascii_char. intros H.
  apply andb_true_iff in H as [_ H2]. apply Nat.leb_le in H2.
  apply Nat.ltb_lt. lia.
Qed.

Lemma int_lstrip_id (l : list ascii) :
  (forall a, In a l -> Py.is_int_space a = false) -> Py.int_lstrip l = l.
Proof.
  destruct l as [|a l]; [reflexivity|]. intros H. simpl.
  rewrite (H a (or_introl eq_refl)). reflexivity.
Qed.

Lemma int_strip_id (l : list ascii) :
  (forall a, In a l -> Py.is_int_space a = false) -> Py.int_strip l = l.
Proof.
  intros H. unfold Py.int_strip. rewrite (int_lstrip_id l H).
  rewrite int_lstrip_id; [apply rev_involutive|].
  intros a Ha. apply H, in_rev, Ha.
Qed.

(** An ASCII string is left as it is on the way to [int]. *)
Lemma to_ascii_id (u : Py.unicode) (s : string) :
  (forall a, In a (list_ascii_of_string s) -> Py.is_ascii_char a = true) ->
  Py.to_ascii u EmptyString s = s.
Proof.
  induction s as [|a s IH]; intros H; cbn [Py.to_ascii Py.flush_run];
    [reflexivity|].
  rewrite (H a (or_introl eq_refl)). cbn [append].
  rewrite IH; [reflexivity|]. intros b Hb. apply H. right. exact Hb.
Qed.

Lemma digit_count_uint (d : Decimal.uint) :
  Py.digit_count (list_ascii_of_string (NilEmpty.string_of_uint d))
  = Decimal.nb_digits d.
Proof.
  unfold Py.digit_count.
  induction d; cbn [NilEmpty.string_of_uint list_ascii_of_string filter
                    Decimal.nb_digits]; [reflexivity| ..];
    change (Py.is_digit _) with true; cbv iota; cbn [List.length];
    rewrite IHd; reflexivity.
Qed.

Lemma usize_nb_digits (d : Decimal.uint) :
  DecimalPos.Unsigned.usize d = N.of_nat (Decimal.nb_digits d).
Proof.
  induction d; cbn [DecimalPos.Unsigned.usize Decimal.nb_digits];
    [reflexivity| ..]; rewrite IHd; lia.
Qed.

Lemma of_uint_acc_size (d : Decimal.uint) (acc : positive) :
  10 ^ Z.of_nat (Decimal.nb_digits d) <= Zpos (Pos.of_uint_acc d acc).
Proof.
  change (Zpos (Pos.of_uint_acc d acc))
    with (Z.of_N (N.pos (Pos.of_uint_acc d acc))).
  rewrite DecimalPos.Unsigned.of_uint_acc_rev, usize_nb_digits.
  rewrite N2Z.inj_add, N2Z.inj_mul, N2Z.inj_pow, nat_N_Z.
  change (Z.of_N 10) with 10.
  assert (H : 0 < 10 ^ Z.of_nat (Decimal.nb_digits d))
    by (apply Z.pow_pos_nonneg; lia).
  pose proof (N2Z.is_nonneg
                (DecimalPos.Unsigned.of_lu (Decimal.rev d))) as H0.
  change (Z.of_N (N.pos acc)) with (Zpos acc). nia.
Qed.

(** The decimal writing of a positive number has no more digits than
    the number has. *)
Lemma to_uint_size (p : positive) :
  10 ^ (Z.of_nat (Decimal.nb_digits (Pos.to_uint p)) - 1) <= Zpos p.
Proof.
  pose proof (DecimalPos.Unsigned.of_to p) as Hv.
  pose proof (DecimalPos.Unsigned.to_uint_nonnil p) as Hnil.
  pose proof (DecimalPos.Unsigned.to_uint_nonzero p) as Hzero.
  assert (Hn : Decimal.unorm (Pos.to_uint p) = Pos.to_uint p).
  { rewrite <- DecimalPos.Unsigned.to_of, Hv. reflexivity. }
  assert (Hs : forall d acc,
             10 ^ (Z.of_nat (S (Decimal.nb_digits d)) - 1)
             <= Zpos (Pos.of_uint_acc d acc)).
  { intros d acc.
    replace (Z.of_nat (S (Decimal.nb_digits d)) - 1)
      with (Z.of_nat (Decimal.nb_digits d)) by lia.
    apply of_uint_acc_size. }
  destruct (Pos.to_uint p) as [|d|d|d|d|d|d|d|d|d|d] eqn:E;
    [congruence | | ..];
    try (cbn [Pos.of_uint] in Hv; injection Hv as <-;
         cbn [Decimal.nb_digits]; apply Hs).
  exfalso. unfold Decimal.unorm in Hn. cbn [Decimal.nzhead] in Hn.
  pose proof (DecimalFacts.nzhead_nonzero d) as Hnz.
  destruct (Decimal.nzhead d) eqn:En;
    try (injection Hn as Hn; subst d; cbn [Decimal.nzhead] in En;
         discriminate En);
    try discriminate Hn.
  - injection Hn as <-. apply Hzero. reflexivity.
  - apply (Hnz u). reflexivity.
Qed.

Lemma digits_within_limit (p : positive) :
  Zpos p < 10 ^ 4300 ->
  (Py.int_max_str_digits <? Decimal.nb_digits (Pos.to_uint p))%nat = false.
Proof.
  intros H. apply Nat.ltb_ge. unfold Py.int_max_str_digits.
  pose proof (to_uint_size p) as Hs.
  destruct (Nat.le_gt_cases (Decimal.nb_digits (Pos.to_uint p)) 4300)
    as [Hle|Hgt]; [exact Hle|].
  exfalso.
  assert (Hp : 10 ^ 4300
               <= 10 ^ (Z.of_nat (Decimal.nb_digits (Pos.to_uint p)) - 1)).
  { apply Z.pow_le_mono_r; [lia|].
    change 4300 with (Z.of_nat 4300). lia. }
  apply (Z.lt_irrefl (10 ^ 4300)).
  eapply Z.le_lt_trans; [|exact H].
  eapply Z.le_trans; [exact Hp | exact Hs].
Qed.

Lemma digits_started (d : Decimal.uint) :
  d <> Decimal.Nil ->
  Py.digits 0 false (list_ascii_of_string (NilEmpty.string_of_uint d))
  = Some (Z.of_N (Pos.of_uint d)).
Proof.
  intros Hd. rewrite <- digits_of_uint.
  destruct d; [congruence| ..]; reflexivity.
Qed.

(** [int] on the decimal writing of a number, with or without a sign. *)
Lemma int_ascii_uint (d : Decimal.uint) :
  d <> Decimal.Nil ->
  (Py.int_max_str_digits <? Decimal.nb_digits d)%nat = false ->
  Py.int_ascii (NilEmpty.string_of_uint d) = Some (Z.of_N (Pos.of_uint d))
  /\ Py.int_ascii (String "-" (NilEmpty.string_of_uint d))
     = Some (- Z.of_N (Pos.of_uint d)).
Proof.
  intros Hd Hn.
  assert (Hsp : forall a,
             In a (list_ascii_of_string (NilEmpty.string_of_uint d)) ->
             Py.is_int_space a = false).
  { intros a Ha. apply digit_is_not_int_space, (uint_chars_are_digits d), Ha. }
  split; unfold Py.int_ascii; cbv zeta.
  - rewrite (int_strip_id _ Hsp), digit_count_uint, Hn.
    rewrite <- (digits_started d Hd).
    destruct d; [congruence| ..]; reflexivity.
  - rewrite int_strip_id.
    + cbn [list_ascii_of_string].
      replace (Py.digit_count
                 ("-"%char
                  :: list_ascii_of_string (NilEmpty.string_of_uint d)))
        with (Decimal.nb_digits d)
        by (rewrite <- digit_count_uint; reflexivity).
      rewrite Hn, (digits_started d Hd). reflexivity.
    + cbn [list_ascii_of_string]. intros a [<-|Ha]; [reflexivity|].
      apply Hsp, Ha.
Qed.

Lemma str_is_ascii (n : Z) (a : ascii) :
  In a (list_ascii_of_string (Py.str n)) -> Py.is_ascii_char a = true.
Proof.
  assert (Hu : forall d a,
             In a (list_ascii_of_string (NilZero.string_of_uint d)) ->
             Py.is_ascii_char a = true).
  { intros d b. destruct d;
      try (intros Hb; apply digit_is_ascii, (uint_chars_are_digits _ _ Hb)).
    cbn. intros [<-|[]]. reflexivity. }
  unfold Py.str. destruct n as [|p|p]; cbn [Z.to_int NilZero.string_of_int].
  - apply Hu.
  - apply Hu.
  - cbn [list_ascii_of_string]. intros [<-|H]; [reflexivity | apply (Hu _ _ H)].
Qed.

(** [int] reads back what [str] writes, within the limit on the
    number of digits. *)
Lemma int_str (u : Py.unicode) (n : Z) :
  Z.abs n < 10 ^ 4300 -> Py.int u (Py.str n) = Some n.
Proof.
  intros Hn. unfold Py.int. rewrite (to_ascii_id u _ (str_is_ascii n)).
  unfold Py.str. destruct n as [|p|p]; [reflexivity| |];
    cbn [Z.to_int NilZero.string_of_int];
    pose proof (DecimalPos.Unsigned.to_uint_nonnil p) as Hp;
    replace (NilZero.string_of_uint (Pos.to_uint p))
      with (NilEmpty.string_of_uint (Pos.to_uint p))
      by (destruct (Pos.to_uint p); [congruence| ..]; reflexivity);
    destruct (int_ascii_uint _ Hp (digits_within_limit p Hn)) as [Hpos Hneg].
  - rewrite Hpos, DecimalPos.Unsigned.of_to. reflexivity.
  - rewrite Hneg, DecimalPos.Unsigned.of_to. reflexivity.
Qed.

(** ** The port argument *)

(** X1: the port is not checked against any range. Every integer
    within the digits limit of [int], written in decimal as [str]
    writes it, a negative one or one above 65535 included, is taken as
    the port without a warning. *)
Theorem any_integer_is_taken_as_port (u : Py.unicode) (env : run_env)
  (prog : string) (n : Z) :
  Z.abs n < 10 ^ 4300 ->
  select_port u [prog; Py.str n] = ([], n)
  /\ script u env [prog; Py.str n] = main env n.
Proof.
  intros Hn. unfold script, select_port. rewrite (int_str u n Hn).
  split; [reflexivity | apply run_eta].
Qed.

Lemma any_integer_is_taken_as_port_witness :
  select_port no_unicode ["server.py"; Py.str 70000] = ([], 70000)
  /\ script no_unicode (port_in_use Linux) ["server.py"; Py.str 70000]
     = main (port_in_use Linux) 70000.
Proof.
  apply (any_integer_is_taken_as_port no_unicode (port_in_use Linux)
           "server.py" 70000).
  vm_compute. reflexivity.
Defined.

Lemma chars_app (s t : string) :
  list_ascii_of_string (s ++ t)
  = (list_ascii_of_string s ++ list_ascii_of_string t)%list.
Proof. induction s as [|a s IH]; simpl; congruence. Qed.

(** An ASCII character of a string is still there when the string has
    been made ASCII. *)
Lemma to_ascii_keeps (u : Py.unicode) (c : ascii) (s run : string) :
  Py.is_ascii_char c = true ->
  In c (list_ascii_of_string s) ->
  In c (list_ascii_of_string (Py.to_ascii u run s)).
Proof.
  intros Hc. revert run.
  induction s as [|a s IH]; intros run; cbn [list_ascii_of_string Py.to_ascii];
    [contradiction|].
  intros [->|H].
  - rewrite Hc, chars_app. apply in_or_app. right. left. reflexivity.
  - destruct (Py.is_ascii_char a).
    + rewrite chars_app. apply in_or_app. right. right. apply IH, H.
    + apply IH, H.
Qed.

Lemma int_lstrip_keeps (c : ascii) (l : list ascii) :
  Py.is_int_space c = false -> In c l -> In c (Py.int_lstrip l).
Proof.
  intros Hc. induction l as [|a l IH]; simpl; [auto|].
  intros [->|H].
  - rewrite Hc. left. reflexivity.
  - destruct (Py.is_int_space a); [auto | right; exact H].
Qed.

Lemma int_strip_keeps (c : ascii) (l : list ascii) :
  Py.is_int_space c = false -> In c l -> In c (Py.int_strip l).
Proof.
  intros Hc H. unfold Py.int_strip.
  apply in_rev. rewrite rev_involutive.
  apply int_lstrip_keeps; [exact Hc|]. apply in_rev.
  rewrite rev_involutive. apply int_lstrip_keeps; assumption.
Qed.

Lemma space_of_int (c : ascii) :
  Py.is_space c = false -> Py.is_int_space c = false.
Proof.
  unfold Py.is_space, Py.is_int_space. cbv zeta. intros H.
  apply orb_false_iff in H as [H _]. apply orb_false_iff in H as [H _].
  apply orb_false_iff in H as [H1 H2]. rewrite H1. cbn [orb].
  destruct (Nat.eqb_spec (nat_of_ascii c) 32) as [E|_]; [|reflexivity].
  rewrite E in H2. discriminate H2.
Qed.

Lemma digits_reject (c : ascii) (l : list ascii) (acc : Z) (b : bool) :
  Py.is_digit c = false -> Ascii.eqb c "_" = false -> In c l ->
  Py.digits acc b l = None.
Proof.
  intros Hd Hu. revert acc b.
  induction l as [|a l IH]; intros acc b; simpl; [contradiction|].
  intros [->|H].
  - rewrite Hd, Hu. reflexivity.
  - destruct (Py.is_digit a); [apply IH, H|].
    destruct (Ascii.eqb a "_"); [|reflexivity].
    destruct b; [apply IH, H | reflexivity].
Qed.

(** [int] by cases on the first character that is left when the white
    space is taken off. *)
Lemma int_ascii_cases (s : string) :
  Py.int_ascii s
  = if (Py.int_max_str_digits
        <? Py.digit_count (Py.int_strip (list_ascii_of_string s)))%nat
    then None
    else match Py.int_strip (list_ascii_of_string s) with
         | a :: r =>
             if Ascii.eqb a "+" then Py.digits 0 false r
             else if Ascii.eqb a "-"
                  then option_map Z.opp (Py.digits 0 false r)
                  else Py.digits 0 false (a :: r)
         | [] => Py.digits 0 false []
         end.
Proof.
  unfold Py.int_ascii. cbv zeta.
  destruct (Py.int_max_str_digits
            <? Py.digit_count (Py.int_strip (list_ascii_of_string s)))%nat;
    [reflexivity|].
  destruct (Py.int_strip (list_ascii_of_string s)) as [|a r];
    [reflexivity|].
  destruct a as [[|] [|] [|] [|] [|] [|] [|] [|]]; reflexivity.
Qed.

(** X2: an argument with an ASCII character that is no digit, sign,
    underscore or white space is not a port: the warning is printed
    and the port is 8000. *)
Theorem malformed_port_gives_default (u : Py.unicode) (prog arg : string)
  (rest : list string) (c : ascii) :
  In c (list_ascii_of_string arg) ->
  literal_char c = false ->
  (nat_of_ascii c < 128)%nat ->
  select_port u (prog :: arg :: rest)
  = (["❌ Invalid port number. Using default port 8000."], 8000).
Proof.
  intros Hin Hc Hascii. unfold literal_char in Hc.
  apply orb_false_iff in Hc as [Hc Hminus].
  apply orb_false_iff in Hc as [Hc Hplus].
  apply orb_false_iff in Hc as [Hc Hu].
  apply orb_false_iff in Hc as [Hd Hsp].
  assert (Ha : Py.is_ascii_char c = true) by (apply Nat.ltb_lt, Hascii).
  assert (E : Py.int u arg = None).
  { unfold Py.int. rewrite int_ascii_cases.
    pose proof (int_strip_keeps c _ (space_of_int c Hsp)
                  (to_ascii_keeps u c arg EmptyString Ha Hin)) as Hs.
    destruct (Py.int_max_str_digits <? _)%nat; [reflexivity|].
    destruct (Py.int_strip
                (list_ascii_of_string (Py.to_ascii u EmptyString arg)))
      as [|a r]; [contradiction|].
    destruct (Ascii.eqb_spec a "+") as [->|_].
    - destruct Hs as [<-|Hs]; [discriminate Hplus|].
      apply (digits_reject c); assumption.
    - destruct (Ascii.eqb_spec a "-") as [->|_].
      + destruct Hs as [<-|Hs]; [discriminate Hminus|].
        rewrite (digits_reject c); [reflexivity | assumption..].
      + apply (digits_reject c); assumption. }
  unfold select_port. rewrite E. reflexivity.
Qed.

Lemma malformed_port_gives_default_witness :
  select_port no_unicode ["server.py"; "8080.0"]
  = (["❌ Invalid port number. Using default port 8000."], 8000).
Proof.
  apply (malformed_port_gives_default no_unicode "server.py" "8080.0" []
           "."%char).
  - simpl. tauto.
  - reflexivity.
  - apply Nat.ltb_lt. reflexivity.
Defined.

(** ** The outcomes of [main] *)

(** X3: the exit code tells what ended the run. There is none while
    the server keeps serving; it is 0 exactly when an interrupt ended
    the run, at the bind or while serving; it is 1 exactly when any
    other exception did, at the bind or while serving: an OS error,
    which [main] reports, or an exception [main] does not catch, such
    as the [OverflowError] of a port outside 0 to 65535, after which
    nothing more is printed on the standard output. *)
Theorem exit_code_cases (env : run_env) (port : Z) :
  (exit_code (main env port) = None
   <-> bind env port = None /\ serve_forever env = None)
  /\ (exit_code (main env port) = Some 0
      <-> bind env port = Some KeyboardInterrupt
          \/ (bind env port = None
              /\ serve_forever env = Some KeyboardInterrupt))
  /\ (exit_code (main env port) = Some 1
      <-> (exists e, e <> KeyboardInterrupt /\ bind env port = Some e)
          \/ (bind env port = None
              /\ exists e, e <> KeyboardInterrupt
                           /\ serve_forever env = Some e))
  /\ (forall name : string,
        bind env port = Some (OtherError name) ->
        main env port = {| stdout := []; exit_code := Some 1 |})
  /\ (forall name : string,
        bind env port = None ->
        serve_forever env = Some (OtherError name) ->
        main env port = {| stdout := banner port; exit_code := Some 1 |}).
Proof.
  unfold main, main_try.
  destruct (bind env port) as [[errno strerror| |name]|];
    [| | |destruct (serve_forever env) as [[errno strerror| |name]|]];
    cbn [main_except stdout exit_code];
    (split; [|split; [|split; [|split]]]);
    try (split; intros Hc);
    repeat match goal with
           | H : _ /\ _ |- _ => destruct H
           | H : _ \/ _ |- _ => destruct H
           | H : exists _, _ |- _ => destruct H
           | H : Some _ = Some _ |- _ => injection H as H; subst
           end;
    try discriminate; try congruence; try reflexivity;
    try (intros; discriminate);
    try (intros; rewrite ?app_nil_r; reflexivity);
    try (left; eexists; split; [|reflexivity]; discriminate);
    try (right; split; [reflexivity|];
         eexists; split; [|reflexivity]; discriminate);
    auto.
Qed.

Lemma exit_code_cases_witness :
  exit_code (main (port_in_use Linux) 8000) = Some 1
  /\ main {| bind := fun _ => Some (OtherError "OverflowError");
             serve_forever := None |} 70000
     = {| stdout := []; exit_code := Some 1 |}.
Proof.
  split.
  - apply (proj1 (proj2 (proj2 (exit_code_cases (port_in_use Linux) 8000)))).
    left. exists (OSError 98 "Address already in use").
    split; [discriminate | reflexivity].
  - exact (proj1 (proj2 (proj2 (proj2
             (exit_code_cases
                {| bind := fun _ => Some (OtherError "OverflowError");
                   serve_forever := None |} 70000))))
             "OverflowError" eq_refl).
Defined.

(** X4: the handlers of [main] do not tell an error of the bind from
    an error raised later. An OS error that ends the accept loop after
    the banner was printed is reported with the messages of a failed
    start, with errno 48 as the port being in use, and the exit code
    is 1. *)
Theorem error_while_serving (env : run_env) (port errno : Z)
  (strerror : string) :
  bind env port = None ->
  serve_forever env = Some (OSError errno strerror) ->
  main env port
  = {| stdout :=
         (banner port
          ++ (if errno =? 48
              then [ ("❌ Port " ++ Py.str port
                      ++ " is already in use. Try a different port.")%string;
                     ("💡 You can specify a different port: "
                      ++ "python3 server.py " ++ Py.str (port + 1))%string ]
              else [ ("❌ Error starting server: [Errno " ++ Py.str errno
                      ++ "] " ++ strerror)%string ]))%list;
       exit_code := Some 1 |}.
Proof.
  intros Hb Hs. unfold main, main_try. rewrite Hb, Hs. reflexivity.
Qed.

Lemma error_while_serving_witness :
  main {| bind := fun _ => None;
          serve_forever := Some (OSError 48 "Address already in use") |} 8000
  = {| stdout :=
         (banner 8000
          ++ [ "❌ Port 8000 is already in use. Try a different port.";
               "💡 You can specify a different port: python3 server.py 8001"
             ])%list;
       exit_code := Some 1 |}.
Proof.
  exact (error_while_serving
           {| bind := fun _ => None;
              serve_forever := Some (OSError 48 "Address already in use") |}
           8000 48 "Address already in use" eq_refl eq_refl).
Defined.

(** ** The answers of the handler *)


(** X6: where [do_GET] does not rewrite the path, a HEAD request is
    answered with the very head of the answer to the GET request, the
    same status line and headers, and with nothing after it. *)
Theorem head_mirrors_get (lib : library) (fs : filesystem) (p : string) :
  PWAHandler.falls_back fs p = false ->
  exists hd rest,
    wfile (PWAHandler.handle lib fs (request "GET" p)) = hd :: rest
    /\ wfile (PWAHandler.handle lib fs (request "HEAD" p)) = [hd].
Proof.
  intros Hf.
  change (PWAHandler.handle lib fs (request "GET" p))
    with (PWAHandler.do_GET lib fs (request "GET" p)).
  change (PWAHandler.handle lib fs (request "HEAD" p))
    with (SimpleHTTPRequestHandler.do_HEAD PWAHandler.end_headers lib fs
            (request "HEAD" p)).
  unfold PWAHandler.do_GET. rewrite rewrite_path_request, Hf.
  destruct (send_head_uniform lib fs no_headers p) as (hd & f & H).
  destruct (H "HTTP/1.1" "GET") as (body & E & _ & _ & _).
  destruct (H "HTTP/1.1" "HEAD") as (body' & E' & _ & Hh & _).
  rewrite (Hh eq_refl) in E'.
  unfold SimpleHTTPRequestHandler.do_GET, SimpleHTTPRequestHandler.do_HEAD.
  unfold request. rewrite E, E'.
  destruct f; cbn [fst wfile answered write app head_of];
    do 2 eexists; split; reflexivity.
Qed.

Lemma head_mirrors_get_witness :
  exists hd rest,
    wfile (PWAHandler.handle stdlib site (request "GET" "/app.js"))
    = hd :: rest
    /\ wfile (PWAHandler.handle stdlib site (request "HEAD" "/app.js"))
       = [hd].
Proof.
  exact (head_mirrors_get stdlib site "/app.js" eq_refl).
Defined.



(** ** The path rewrite *)

(** X8: the rewrite of [do_GET] is idempotent and touches the path
    only: a second rewrite changes nothing, a request whose path was
    already rewritten is answered as the request itself, and the
    method, the header buffer and what was written stay as they
    were. *)
Theorem rewrite_path_idempotent (lib : library) (fs : filesystem)
  (h : handler) :
  PWAHandler.rewrite_path fs (PWAHandler.rewrite_path fs h)
  = PWAHandler.rewrite_path fs h
  /\ PWAHandler.do_GET lib fs (PWAHandler.rewrite_path fs h)
     = PWAHandler.do_GET lib fs h
  /\ command (PWAHandler.rewrite_path fs h) = command h
  /\ headers_buffer (PWAHandler.rewrite_path fs h) = headers_buffer h
  /\ wfile (PWAHandler.rewrite_path fs h) = wfile h.
Proof.
  assert (H : PWAHandler.rewrite_path fs (PWAHandler.rewrite_path fs h)
              = PWAHandler.rewrite_path fs h).
  { unfold PWAHandler.rewrite_path.
    destruct (PWAHandler.falls_back fs (path h)) eqn:E.
    - cbn [path set_path].
      destruct (PWAHandler.falls_back fs "/index.html"); reflexivity.
    - rewrite E. reflexivity. }
  split; [exact H|]. split.
  - unfold PWAHandler.do_GET. rewrite H. reflexivity.
  - unfold PWAHandler.rewrite_path.
    destruct (PWAHandler.falls_back fs (path h)); repeat split.
Qed.

(** X9: the existence check drops the first character of the path
    whatever it is, not a leading slash only: two paths of more than
    one character that differ in their first character alone are
    treated alike. *)
Theorem first_character_is_not_looked_at (fs : filesystem) (c c' : ascii)
  (r : string) :
  r <> "" ->
  PWAHandler.falls_back fs (String c r) = PWAHandler.falls_back fs (String c' r).
Proof.
  intros Hr. unfold PWAHandler.falls_back. cbn [Py.tail].
  assert (E : forall a, String.eqb (String a r) "/" = false).
  { intros a. simpl. destruct (Ascii.eqb a "/"); [|reflexivity].
    destruct r; [congruence | reflexivity]. }
  rewrite !E. reflexivity.
Qed.

Lemma first_character_is_not_looked_at_witness :
  PWAHandler.falls_back site "/app.js" = PWAHandler.falls_back site "Xapp.js".
Proof.
  apply (first_character_is_not_looked_at site "/"%char "X"%char "app.js").
  discriminate.
Defined.

(** X10: a plain path that names an existing directory, without a
    slash at its end, is not rewritten to the document: the answer is
    the redirection of the inherited handler, a 301 with no body. *)
Theorem plain_directory_is_redirected (lib : library) (fs : filesystem)
  (ws : list string) (entries : list (string * node)) :
  forallb plain_name ws = true ->
  Posix.stat fs (Py.tail (url_of ws)) = Some (Dir entries) ->
  PWAHandler.rewrite_path fs (request "GET" (url_of ws))
  = request "GET" (url_of ws)
  /\ wfile (PWAHandler.do_GET lib fs (request "GET" (url_of ws)))
     = [response_head 301 "Moved Permanently"
          (redirect_headers lib (url_of ws))].
Proof.
  intros Hp H. pose proof (stat_found_nonempty _ _ _ H) as Hne.
  destruct (do_GET_found lib fs (request "GET" (url_of ws)) _ H) as [Hr ->].
  split; [exact Hr|].
  unfold SimpleHTTPRequestHandler.do_GET, SimpleHTTPRequestHandler.send_head.
  unfold request. cbn [path request_of].
  rewrite (translate_path_plain (url_of ws) ws Hne Hp (url_path_plain ws Hp)).
  rewrite (node_at_stat fs ws Hne Hp), H.
  rewrite (url_path_plain ws Hp), (endswith_url ws Hne Hp). cbn [negb].
  rewrite redirect_out. reflexivity.
Qed.

Lemma plain_directory_is_redirected_witness :
  wfile (PWAHandler.do_GET stdlib site (request "GET" "/static"))
  = [response_head 301 "Moved Permanently"
       (redirect_headers stdlib "/static")].
Proof.
  exact (proj2 (plain_directory_is_redirected stdlib site ["static"]
                  [("style.css", File 3 "css")] eq_refl eq_refl)).
Defined.

(** ** A slash after the name of a file *)

Lemma concat_starts_plain (ws : list string) :
  ws <> [] -> forallb plain_name ws = true ->
  forall t,
    (String.concat "/" ws ++ t)%string <> ""
    /\ SimpleHTTPRequestHandler.starts_with_slash (String.concat "/" ws ++ t)
       = false.
Proof.
  intros Hne H t. destruct ws as [|w ws]; [congruence|].
  simpl in H. apply andb_true_iff in H as [Hw _].
  pose proof (plain_name_chars _ Hw) as Hc.
  destruct w as [|a w]; [discriminate Hw|].
  simpl in Hc. apply andb_true_iff in Hc as [Ha _].
  assert (Hs : Ascii.eqb a "/" = false).
  { destruct (Ascii.eqb_spec a "/"); [subst a; discriminate Ha | reflexivity]. }
  destruct ws; simpl; rewrite Hs; split; (discriminate || reflexivity).
Qed.

(** X11: a slash after the plain path of an existing regular file
    makes the existence check fail, because a file has nothing below
    it, so the request is answered as a request for [/index.html]. *)
Theorem slash_after_file_falls_back (lib : library) (fs : filesystem)
  (ws : list string) (mtime : Z) (data : string) :
  forallb plain_name ws = true ->
  Posix.stat fs (Py.tail (url_of ws)) = Some (File mtime data) ->
  Posix.stat fs (Py.tail (url_of ws ++ "/")) = None
  /\ path (PWAHandler.rewrite_path fs (request "GET" (url_of ws ++ "/")))
     = "/index.html"
  /\ PWAHandler.do_GET lib fs (request "GET" (url_of ws ++ "/"))
     = SimpleHTTPRequestHandler.do_GET PWAHandler.end_headers lib fs
         (request "GET" "/index.html").
Proof.
  intros Hp H. pose proof (stat_found_nonempty _ _ _ H) as Hne.
  assert (Hnone : Posix.stat fs (Py.tail (url_of ws ++ "/")) = None).
  { unfold url_of. cbn [append Py.tail].
    destruct (concat_starts_plain ws Hne Hp "/") as [Hn Hs].
    rewrite (stat_relative fs _ Hn Hs).
    rewrite split_snoc, (split_concat ws Hne Hp), walk_app.
    pose proof (walk_plain fs ws (cwd fs) Hp) as Hw.
    rewrite <- (stat_plain fs ws Hne Hp), H in Hw.
    destruct (Posix.walk fs (cwd fs) ws) as [pos|]; [|reflexivity].
    simpl. unfold Posix.step. rewrite Hw. reflexivity. }
  split; [exact Hnone|]. split; [|apply do_GET_missing, Hnone].
  rewrite rewrite_path_request, (falls_back_missing _ _ Hnone). reflexivity.
Qed.

Lemma slash_after_file_falls_back_witness :
  PWAHandler.do_GET stdlib site (request "GET" ("/app.js" ++ "/"))
  = SimpleHTTPRequestHandler.do_GET PWAHandler.end_headers stdlib site
      (request "GET" "/index.html").
Proof.
  exact (proj2 (proj2 (slash_after_file_falls_back stdlib site ["app.js"]
                         2 "js" eq_refl eq_refl))).
Defined.

(** ** The other methods *)


